(** * StreamDeckController: catalog normalization, button layout and
    input routing of [src/streamdeck.mjs], as a shallow embedding.

    The controller is a JavaScript class with private mutable fields.  The
    embedding keeps them as one record that every method threads through;
    a method that can raise returns the state it had reached together with
    the exception.  Each event handler is run to completion (the [await]
    points of the source are not interleaved with other events). *)

From Stdlib Require Import ZArith Ascii String.
From stdpp Require Import base option list gmap fin_maps strings pretty.

Open Scope string_scope.
Open Scope Z_scope.

(** ** JavaScript values of a decoded document *)

Module Js.

(** Objects and arrays carry the address of their allocation: [===]
    compares them by identity, not by contents.  The fields of an object
    are listed in the order in which the engine enumerates them, each
    key once.  Numbers are the integers; the code only ever tests a
    number for being zero or passes it on.  A string is its sequence of
    code units, one [ascii] each. *)
#[warnings="-register-all"]
Inductive value : Type :=
| Undefined
| Null
| Bool (b : bool)
| Num (n : Z)
| Str (s : string)
| Arr (l : positive) (elems : list value)
| Obj (l : positive) (fields : list (string * value)).

Inductive error : Type :=
| TypeError
| Error (message : string).

Inductive result (A : Type) : Type :=
| Ok (a : A)
| Throw (e : error).
Arguments Ok {A} a.
Arguments Throw {A} e.

#[global] Instance result_ret : MRet result := fun A a => Ok a.
#[global] Instance result_bind : MBind result := fun A B f r =>
  match r with
  | Ok a => f a
  | Throw e => Throw e
  end.
#[global] Instance result_fmap : FMap result := fun A B f r =>
  match r with
  | Ok a => Ok (f a)
  | Throw e => Throw e
  end.

(** [ToBoolean] *)
Definition truthy (v : value) : bool :=
  match v with
  | Undefined | Null => false
  | Bool b => b
  | Num n => negb (n =? 0)
  | Str s => negb (String.eqb s "")
  | Arr _ _ | Obj _ _ => true
  end.

Definition nullish (v : value) : bool :=
  match v with
  | Undefined | Null => true
  | _ => false
  end.

(** [a || b] and [a ?? b] on already evaluated operands. *)
Definition or (a b : value) : value := if truthy a then a else b.

(** [a === b] *)
Definition strict_eq (a b : value) : bool :=
  match a, b with
  | Undefined, Undefined => true
  | Null, Null => true
  | Bool x, Bool y => Bool.eqb x y
  | Num x, Num y => x =? y
  | Str x, Str y => String.eqb x y
  | Arr x _, Arr y _ => Pos.eqb x y
  | Obj x _, Obj y _ => Pos.eqb x y
  | _, _ => false
  end.

Definition own (f : string) (fields : list (string * value)) : value :=
  match List.find (fun kv => String.eqb (fst kv) f) fields with
  | Some kv => snd kv
  | None => Undefined
  end.

(** [v.f] for the property names the controller reads ([state], [name],
    [lanes], [cells], [items], [L], [R], ...): none of them is defined on
    the prototypes of arrays, strings, numbers or booleans. *)
Definition get (v : value) (f : string) : result value :=
  match v with
  | Undefined | Null => Throw TypeError
  | Obj _ fields => Ok (own f fields)
  | _ => Ok Undefined
  end.

(** [v?.f] *)
Definition get_opt (v : value) (f : string) : result value :=
  if nullish v then Ok Undefined else get v f.

(** [v[0]] *)
Definition first (v : value) : result value :=
  match v with
  | Undefined | Null => Throw TypeError
  | Arr _ elems => Ok (List.hd Undefined elems)
  | Obj _ fields => Ok (own "0" fields)
  | Str (String c _) => Ok (Str (String c ""))
  | _ => Ok Undefined
  end.

Definition indices (n : nat) : list string :=
  (fun i => pretty (Z.of_nat i)) <$> seq 0 n.

(** [Object.keys(v)] for a [v] that is not nullish. *)
Definition keys (v : value) : list string :=
  match v with
  | Obj _ fields => fst <$> fields
  | Arr _ elems => indices (List.length elems)
  | Str s => indices (String.length s)
  | _ => []
  end.

(** [Object.values(v)] *)
Definition values (v : value) : result (list value) :=
  match v with
  | Undefined | Null => Throw TypeError
  | Obj _ fields => Ok (snd <$> fields)
  | Arr _ elems => Ok elems
  | Str s => Ok ((fun c => Str (String c "")) <$> list_ascii_of_string s)
  | _ => Ok []
  end.

(** [v.flatMap(f)] where [f] always returns an array: a [v] that is not
    an array has no [flatMap] to call. *)
Definition flatMap {A : Type} (v : value) (f : value -> result (list A))
  : result (list A) :=
  match v with
  | Arr _ elems => (@concat A) <$> mapM f elems
  | _ => Throw TypeError
  end.

Definition lower (c : ascii) : ascii :=
  let n := nat_of_ascii c in
  if ((65 <=? n)%nat && (n <=? 90)%nat)%bool then ascii_of_nat (n + 32) else c.

(** [s.toLowerCase()] on the code units below 128; no character outside
    that range lower-cases to a letter of [source], [proc] or [dest]. *)
Fixpoint toLowerCase (s : string) : string :=
  match s with
  | EmptyString => EmptyString
  | String c s' => String (lower c) (toLowerCase s')
  end.

End Js.

Import Js.

(** ** The catalog: chains and their modules *)

Module Mod.
(** The object literal built for one side of an item (lines 263-270). *)
Record t : Type := mk {
  name : value;
  deviceName : value;
  role : value;
  midiNote : value;
  channel : string;
  phonia : value;
  tags : value;
  ab : value
}.
End Mod.

Module Chain.
(** The object literal built for one chain (lines 256-274). *)
Record t : Type := mk {
  name : value;
  id : value;
  midiChannel : value;
  active : value;
  modules : list Mod.t
}.
End Chain.

(** [Object.keys(r || {})[0]] *)
Definition firstRoleKey (r : value) : value :=
  match (if truthy r then keys r else []) with
  | k :: _ => Str k
  | [] => Undefined
  end.

(** The arrow function of line 262: the module record of side [ch]. *)
Definition moduleOf (cell item : value) (ch : string) : result Mod.t :=
  side ← get item ch;
  name ← get side "name";
  device ← get side "device";
  deviceName ← get_opt device "name";
  role ← get side "role";
  midi ← get side "midi";
  midiNote ← get_opt midi "note";
  phonia ← get side "phonia";
  tags ← get side "tags";
  ab ← get cell "ab";
  mret (Mod.mk name deviceName (firstRoleKey role) midiNote ch phonia tags ab).

(** [['L', 'R'].filter(ch => item[ch])] *)
Fixpoint presentSides (item : value) (chs : list string) : result (list string) :=
  match chs with
  | [] => mret []
  | ch :: rest =>
      side ← get item ch;
      kept ← presentSides item rest;
      mret (if truthy side then ch :: kept else kept)
  end.

(** The arrow function of lines 261-271, applied to one item. *)
Definition itemModules (cell item : value) : result (list Mod.t) :=
  chs ← presentSides item ["L"; "R"];
  mapM (moduleOf cell item) chs.

(** The arrow function of lines 260-273, applied to one cell:
    [cell.items?.flatMap(...) ?? []]. *)
Definition cellModules (cell : value) : result (list Mod.t) :=
  items ← get cell "items";
  if nullish items then mret [] else flatMap items (itemModules cell).

(** [chain.lanes?.[0].cells?.flatMap(...) ?? []]: the optional chain is cut
    short only at [lanes] and at [cells]. *)
Definition chainModules (chain : value) : result (list Mod.t) :=
  lanes ← get chain "lanes";
  if nullish lanes then mret [] else
  lane ← first lanes;
  cells ← get lane "cells";
  if nullish cells then mret [] else flatMap cells cellModules.

(** The arrow function of lines 255-275, applied to one chain. *)
Definition normalizeChain (chain : value) : result Chain.t :=
  state ← get chain "state";
  name ← get_opt state "name";
  id ← get chain "id";
  midiChannel ← get_opt state "midiChannel";
  cond ← get chain "cond";
  active ← get_opt cond "active";
  modules ← chainModules chain;
  mret (Chain.mk (or name (Str "Unnamed Chain")) id midiChannel
          (or active (Bool false)) modules).

(** [Object.values(data.chains).map(...)] *)
Definition normalize (data : value) : result (list Chain.t) :=
  chains ← get data "chains";
  vs ← values chains;
  mapM normalizeChain vs.

(** ** The panel and the controller's fields *)

(** What [setButtonText] renders on one button: the label, its style and
    the MIDI channel drawn in the corner, if any. *)
Record Face : Type := {
  text : value;
  fontSize : Z;
  color : string;
  backgroundColor : string;
  cornerRadius : Z;
  overlay : option value
}.

(** The opened panel.  [accepts index face] tells whether rendering [face]
    and writing it to button [index] succeeds; when it does not,
    [setButtonText] catches the exception. *)
Record Device : Type := {
  panel : gmap Z Face;
  brightness : Z;
  accepts : Z -> Face -> bool
}.

(** The argument that the panel hands to the [down] and [up] listeners,
    and what the controller computes from it: a number, [NaN],
    [undefined], or a control record with its [index] property. *)
Inductive key : Type :=
| KNum (n : Z)
| KNaN
| KUndefined
| KControl (index : option Z).

(** The functions that get registered: the two closures the controller
    builds itself, and those handed in through the public methods. *)
Inductive Callback : Type :=
| CurrentChainPressed (chainName : value)
| ModulePressed (label : value) (module : Mod.t)
| Handler (h : nat).

Inductive Arg : Type :=
| ANum (n : Z)
| AKey (k : key).

(** What a run leaves behind outside the controller's fields, oldest
    first: writes to the panel, calls of registered callbacks and the
    errors reported with [console.error]. *)
Inductive Effect : Type :=
| ClearPanel
| SetBrightness (percent : Z)
| FillKeyBuffer (index : Z) (face : Face)
| Call (cb : Callback) (args : list Arg)
| TextError (index : Z)
| LoadError (e : error).

(** An entry of [#buttonStates]: the two callbacks and the spread
    [buttonInfo]. *)
Record ButtonState : Type := {
  pressCallback : Callback;
  releaseCallback : option Callback;
  info_type : value;
  info_name : value;
  info_role : value
}.

Record EncoderCallbacks : Type := {
  rotate : option Callback;
  press : option Callback;
  release : option Callback
}.

(** [#encoderCallbacks] and its two keys. *)
Inductive EncoderKey : Type := Left | Right.

Record Encoders : Type := {
  left : EncoderCallbacks;
  right : EncoderCallbacks
}.

Record Controller : Type := {
  streamDeck : option Device;
  buttonStates : gmap Z ButtonState;
  encoderCallbacks : Encoders;
  chains : list Chain.t;
  currentChain : option Chain.t;
  buttonTexts : gmap Z value;
  effects : list Effect
}.

(** A method that raised: the exception and the fields as it left them. *)
Inductive outcome : Type :=
| Done (st : Controller)
| Threw (e : error) (st : Controller).

Definition final (o : outcome) : Controller :=
  match o with
  | Done st => st
  | Threw _ st => st
  end.

Definition with_streamDeck (d : option Device) (st : Controller) : Controller :=
  {| streamDeck := d; buttonStates := buttonStates st;
     encoderCallbacks := encoderCallbacks st; chains := chains st;
     currentChain := currentChain st; buttonTexts := buttonTexts st;
     effects := effects st |}.

Definition with_buttonStates (m : gmap Z ButtonState) (st : Controller) : Controller :=
  {| streamDeck := streamDeck st; buttonStates := m;
     encoderCallbacks := encoderCallbacks st; chains := chains st;
     currentChain := currentChain st; buttonTexts := buttonTexts st;
     effects := effects st |}.

Definition with_encoderCallbacks (e : Encoders) (st : Controller) : Controller :=
  {| streamDeck := streamDeck st; buttonStates := buttonStates st;
     encoderCallbacks := e; chains := chains st;
     currentChain := currentChain st; buttonTexts := buttonTexts st;
     effects := effects st |}.

Definition with_chains (cs : list Chain.t) (st : Controller) : Controller :=
  {| streamDeck := streamDeck st; buttonStates := buttonStates st;
     encoderCallbacks := encoderCallbacks st; chains := cs;
     currentChain := currentChain st; buttonTexts := buttonTexts st;
     effects := effects st |}.

Definition with_currentChain (c : option Chain.t) (st : Controller) : Controller :=
  {| streamDeck := streamDeck st; buttonStates := buttonStates st;
     encoderCallbacks := encoderCallbacks st; chains := chains st;
     currentChain := c; buttonTexts := buttonTexts st;
     effects := effects st |}.

Definition with_buttonTexts (m : gmap Z value) (st : Controller) : Controller :=
  {| streamDeck := streamDeck st; buttonStates := buttonStates st;
     encoderCallbacks := encoderCallbacks st; chains := chains st;
     currentChain := currentChain st; buttonTexts := m;
     effects := effects st |}.

Definition emit (e : Effect) (st : Controller) : Controller :=
  {| streamDeck := streamDeck st; buttonStates := buttonStates st;
     encoderCallbacks := encoderCallbacks st; chains := chains st;
     currentChain := currentChain st; buttonTexts := buttonTexts st;
     effects := effects st ++ [e] |}.

Definition noCallbacks : EncoderCallbacks :=
  {| rotate := None; press := None; release := None |}.

(** The fields as the class declares them (lines 13-29), with the panel
    that [#initialize] found, or none. *)
Definition created (d : option Device) : Controller :=
  {| streamDeck := d; buttonStates := ∅;
     encoderCallbacks := {| left := noCallbacks; right := noCallbacks |};
     chains := [];
     currentChain := None; buttonTexts := ∅; effects := [] |}.

(** ** Methods *)

(** [resetDeck] (lines 99-105), on a panel whose [clearPanel] and
    [setBrightness] do not raise: a run in which they do is not modelled,
    and what is proved of an opened panel past a reset is stated for a
    panel that never fails. *)
Definition resetDeck (st : Controller) : Controller :=
  match streamDeck st with
  | None => st
  | Some d =>
      let d' := {| panel := ∅; brightness := 100; accepts := accepts d |} in
      with_buttonTexts ∅
        (with_buttonStates ∅
           (emit (SetBrightness 100)
              (emit ClearPanel (with_streamDeck (Some d') st))))
  end.

(** The [options] argument of [setButtonText]; a missing property is
    [None], or [Undefined] for [midiChannel]. *)
Record TextOptions : Type := {
  opt_fontSize : option Z;
  opt_color : option string;
  opt_backgroundColor : option string;
  opt_cornerRadius : option Z;
  opt_midiChannel : value
}.

(** The destructuring with defaults of lines 130-136 and the test
    [midiChannel !== null] of line 157. *)
Definition faceOf (text : value) (o : TextOptions) : Face :=
  let midiChannel :=
    match opt_midiChannel o with
    | Undefined => Null
    | v => v
    end in
  {| text := text;
     fontSize := default 20 (opt_fontSize o);
     color := default "#ffffff" (opt_color o);
     backgroundColor := default "#000000" (opt_backgroundColor o);
     cornerRadius := default 20 (opt_cornerRadius o);
     overlay := if strict_eq midiChannel Null then None else Some midiChannel |}.

(** [#getKeyIndex] (lines 287-292) *)
Definition getKeyIndex (keyIndex : key) : key :=
  match keyIndex with
  | KControl (Some i) => KNum i
  | KControl None => KUndefined
  | KNum n => KNum n
  | KNaN | KUndefined => KNaN
  end.

(** [Number(keyIndex)] *)
Definition Number (keyIndex : key) : key :=
  match keyIndex with
  | KNum n => KNum n
  | _ => KNaN
  end.

(** [index === 0] *)
Definition isZero (index : key) : bool :=
  match index with
  | KNum 0 => true
  | _ => false
  end.

(** [map.get(k)]: the keys the controller stores are integers. *)
Definition mapGet {A : Type} (m : gmap Z A) (k : key) : option A :=
  match k with
  | KNum n => m !! n
  | _ => None
  end.

(** The key as a template literal prints it. *)
Definition showKey (k : key) : string :=
  match k with
  | KNum n => pretty n
  | KNaN => "NaN"
  | KUndefined => "undefined"
  | KControl _ => "[object Object]"
  end.

(** [setButtonText] (lines 125-186), called with a number for
    [keyIndex] as all the callers in the class do. *)
Definition setButtonText (index : Z) (text : value) (options : TextOptions)
  (st : Controller) : Controller :=
  match streamDeck st with
  | None => st
  | Some d =>
      let face := faceOf text options in
      if accepts d index face then
        let d' := {| panel := <[index := face]> (panel d);
                     brightness := brightness d; accepts := accepts d |} in
        with_buttonTexts (<[index := text]> (buttonTexts st))
          (emit (FillKeyBuffer index face) (with_streamDeck (Some d') st))
      else emit (TextError index) st
  end.

(** [registerButtonAction] (lines 188-195), called with a number. *)
Definition registerButtonAction (keyIndex : Z) (pressCallback : Callback)
  (releaseCallback : option Callback) (type name role : value)
  (st : Controller) : Controller :=
  with_buttonStates
    (<[keyIndex := {| pressCallback := pressCallback;
                      releaseCallback := releaseCallback;
                      info_type := type; info_name := name;
                      info_role := role |}]> (buttonStates st)) st.

(** [#getButtonText] (lines 294-299) *)
Definition getButtonText (keyIndex : key) (st : Controller) : value :=
  let index := getKeyIndex keyIndex in
  or (default Undefined (mapGet (buttonTexts st) index))
     (Str ("Unknown Button " ++ showKey index)).

(** [createShowChainsButton] (lines 348-355) *)
Definition createShowChainsButton (st : Controller) : Controller :=
  setButtonText 0 (Str "Show Chains")
    {| opt_fontSize := Some 16; opt_color := Some "#ffffff";
       opt_backgroundColor := Some "#FF0000"; opt_cornerRadius := None;
       opt_midiChannel := Undefined |} st.

Definition chainOptions (midiChannel : value) : TextOptions :=
  {| opt_fontSize := Some 16; opt_color := Some "#ffffff";
     opt_backgroundColor := Some "#8B4513"; opt_cornerRadius := None;
     opt_midiChannel := midiChannel |}.

(** The loop of [showChains] (lines 307-317), entered at [i] with the
    chains from [#chains[i]] on. *)
Fixpoint showChainButtons (i : nat) (cs : list Chain.t) (st : Controller)
  : Controller :=
  match cs with
  | [] => st
  | chain :: rest =>
      if (i <? 31)%nat then
        let buttonIndex := Z.of_nat i + 1 in
        showChainButtons (S i) rest
          (setButtonText buttonIndex (Chain.name chain)
             (chainOptions (Chain.midiChannel chain)) st)
      else st
  end.

(** [showChains] (lines 301-320) *)
Definition showChains (st : Controller) : Controller :=
  let st := resetDeck st in
  let st := createShowChainsButton st in
  showChainButtons 0 (chains st) st.

(** [createChainNameButton] (lines 357-374) *)
Definition createChainNameButton (chainName : value) (st : Controller) : outcome :=
  match currentChain st with
  | None => Threw TypeError st
  | Some current =>
      let st := setButtonText 1 chainName
                  (chainOptions (Chain.midiChannel current)) st in
      Done (registerButtonAction 1 (CurrentChainPressed chainName) None
              (Str "currentChain") chainName Undefined st)
  end.

(** [#getColorForRole] (lines 377-388) *)
Definition getColorForRole (role : value) : result string :=
  match role with
  | Str r =>
      let r := toLowerCase r in
      if String.eqb r "source" then Ok "#00008B"
      else if String.eqb r "proc" then Ok "#FF8C00"
      else if String.eqb r "dest" then Ok "#006400"
      else Ok "#333333"
  | _ => Throw TypeError
  end.

(** An element of the [layout] array built by [showModules]. *)
Record LayoutButton : Type := {
  label : value;
  lb_backgroundColor : string;
  textColor : string;
  lb_fontSize : Z;
  module : Mod.t
}.

(** The arrow function of lines 337-343. *)
Definition layoutOf (module : Mod.t) : result LayoutButton :=
  backgroundColor ← getColorForRole (Mod.role module);
  mret {| label := or (Mod.deviceName module) (Str "Unknown Device");
          lb_backgroundColor := backgroundColor;
          textColor := "#ffffff";
          lb_fontSize := 12;
          module := module |}.

(** The loop of [createCustomLayout] (lines 395-425), entered at
    [index]. *)
Fixpoint layoutButtons (index : nat) (layout : list LayoutButton)
  (st : Controller) : Controller :=
  match layout with
  | [] => st
  | button :: rest =>
      if (30 <=? index)%nat then st
      else
        let buttonIndex := Z.of_nat index + 2 in
        let st := setButtonText buttonIndex (label button)
                    {| opt_fontSize := Some (lb_fontSize button);
                       opt_color := Some (textColor button);
                       opt_backgroundColor := Some (lb_backgroundColor button);
                       opt_cornerRadius := None;
                       opt_midiChannel := Undefined |} st in
        let st := registerButtonAction buttonIndex
                    (ModulePressed (label button) (module button)) None
                    (Str "module") (label button) (Mod.role (module button)) st in
        layoutButtons (S index) rest st
  end.

(** [createCustomLayout] (lines 390-428) *)
Definition createCustomLayout (layout : list LayoutButton) (st : Controller)
  : Controller :=
  match streamDeck st with
  | None => st
  | Some _ => layoutButtons 0 layout st
  end.

(** [showModules] (lines 333-346) *)
Definition showModules (chain : Chain.t) (st : Controller) : outcome :=
  match mapM layoutOf (Chain.modules chain) with
  | Throw e => Threw e st
  | Ok layout => Done (createCustomLayout layout st)
  end.

(** [loadChain] (lines 322-331) *)
Definition loadChain (chain : Chain.t) (st : Controller) : outcome :=
  let st := with_currentChain (Some chain) st in
  let st := resetDeck st in
  let st := createShowChainsButton st in
  match createChainNameButton (Chain.name chain) st with
  | Threw e st => Threw e st
  | Done st => showModules chain st
  end.

(** [#handleKeyPress] (lines 197-215); the promises of [showChains] and
    [loadChain] are run to their end. *)
Definition handleKeyPress (keyIndex : key) (st : Controller) : outcome :=
  let index := getKeyIndex keyIndex in
  if isZero index then Done (showChains st)
  else
    let buttonText := getButtonText index st in
    match List.find (fun c => strict_eq (Chain.name c) buttonText) (chains st) with
    | Some chain => loadChain chain st
    | None => Done st
    end.

(** [callback?.(args)] *)
Definition invoke (cb : option Callback) (args : list Arg) (st : Controller)
  : Controller :=
  match cb with
  | Some f => emit (Call f args) st
  | None => st
  end.

(** [#handleKeyRelease] (lines 217-224) *)
Definition handleKeyRelease (keyIndex : key) (st : Controller) : Controller :=
  match mapGet (buttonStates st) (Number keyIndex) with
  | Some buttonState => invoke (releaseCallback buttonState) [AKey keyIndex] st
  | None => st
  end.

(** [encoder === 0 ? 'left' : 'right'] *)
Definition encoderKey (encoder : Z) : EncoderKey :=
  if encoder =? 0 then Left else Right.

(** [this.#encoderCallbacks[encoderKey]], read and assigned. *)
Definition callbacksOf (k : EncoderKey) (e : Encoders) : EncoderCallbacks :=
  match k with
  | Left => left e
  | Right => right e
  end.

Definition setCallbacks (k : EncoderKey) (c : EncoderCallbacks) (e : Encoders)
  : Encoders :=
  match k with
  | Left => {| left := c; right := right e |}
  | Right => {| left := left e; right := c |}
  end.

(** [registerEncoderActions] (lines 226-233) *)
Definition registerEncoderActions (encoder : Z)
  (onRotate onPress onRelease : option Callback) (st : Controller) : Controller :=
  with_encoderCallbacks
    (setCallbacks (encoderKey encoder)
       {| rotate := onRotate; press := onPress; release := onRelease |}
       (encoderCallbacks st)) st.

(** [#handleEncoderRotate], [#handleEncoderPress] and
    [#handleEncoderRelease] (lines 235-248) *)
Definition handleEncoderRotate (encoder rotation : Z) (st : Controller) : Controller :=
  invoke (rotate (callbacksOf (encoderKey encoder) (encoderCallbacks st))) [ANum rotation] st.

Definition handleEncoderPress (encoder : Z) (st : Controller) : Controller :=
  invoke (press (callbacksOf (encoderKey encoder) (encoderCallbacks st))) [] st.

Definition handleEncoderRelease (encoder : Z) (st : Controller) : Controller :=
  invoke (release (callbacksOf (encoderKey encoder) (encoderCallbacks st))) [] st.

(** [loadChainLayout] (lines 250-285), from the decoded document on. *)
Definition loadChainLayout (data : value) (st : Controller) : Controller :=
  match normalize data with
  | Throw e => emit (LoadError e) st
  | Ok cs =>
      let st := with_chains cs st in
      match cs with
      | [] => emit (LoadError (Error "No chains found in the JSON file.")) st
      | _ :: _ => showChains st
      end
  end.

(** The events of the panel and the listeners of [#setupEventListeners]
    (lines 70-97). *)
Inductive Event : Type :=
| Down (keyIndex : key)
| Up (keyIndex : key)
| Dial (encoderIndex value : Z)
| DialDown (encoderIndex : Z)
| DialUp (encoderIndex : Z).

Definition listen (ev : Event) (st : Controller) : outcome :=
  match ev with
  | Down k => handleKeyPress k st
  | Up k => Done (handleKeyRelease k st)
  | Dial e v => Done (handleEncoderRotate e v st)
  | DialDown e => Done (handleEncoderPress e st)
  | DialUp e => Done (handleEncoderRelease e st)
  end.


(** ** Observations on a state *)

(** What the panel shows: nothing when no panel was opened. *)
Definition drawn (st : Controller) : gmap Z Face :=
  match streamDeck st with
  | Some d => panel d
  | None => ∅
  end.

(** A panel is opened, and rendering and writing never fail on it. *)
Definition ready (st : Controller) : Prop :=
  match streamDeck st with
  | Some d => forall index face, accepts d index face = true
  | None => False
  end.

(** The registered callbacks that were called, oldest first. *)
Definition calls (es : list Effect) : list (Callback * list Arg) :=
  omap (fun e => match e with
                 | Call cb args => Some (cb, args)
                 | _ => None
                 end) es.

(** [keeps st st']: from [st] to [st'] the catalog, the selected chain
    and the dial callbacks are the same, no registered callback was
    called, and an opened panel that never fails is still one. *)
Record keeps (st st' : Controller) : Prop := {
  keeps_chains : chains st' = chains st;
  keeps_current : currentChain st' = currentChain st;
  keeps_encoders : encoderCallbacks st' = encoderCallbacks st;
  keeps_calls : calls (effects st') = calls (effects st);
  keeps_ready : ready st -> ready st'
}.

(** What the normalization leaves in [role]: the first key of the
    side's [role] object, or [undefined] when there is none. *)
Definition roleShape (m : Mod.t) : Prop :=
  Mod.role m = Undefined \/ exists k, Mod.role m = Str k.

(** The callback that a handler called, with its arguments, if there
    was one to call. *)
Definition fired (cb : option Callback) (args : list Arg)
  : list (Callback * list Arg) :=
  match cb with
  | Some f => [(f, args)]
  | None => []
  end.

(** Every field of the controller except the record of effects. *)
Definition besidesEffects (st : Controller)
  : option Device * gmap Z ButtonState * Encoders * list Chain.t
    * option Chain.t * gmap Z value :=
  (streamDeck st, buttonStates st, encoderCallbacks st, chains st,
   currentChain st, buttonTexts st).

(** ** Layouts, as maps from button indices *)

(** The entries that a loop over [xs], entered at [i] and stopping at
    [cap], adds to [m]: the element at position [i] goes to button
    [i + off]. *)
Fixpoint fill {X A : Type} (f : X -> A) (off : Z) (cap : nat) (i : nat)
  (xs : list X) (m : gmap Z A) : gmap Z A :=
  match xs with
  | [] => m
  | x :: rest =>
      if (i <? cap)%nat then fill f off cap (S i) rest (<[Z.of_nat i + off := f x]> m)
      else m
  end.

Definition showChainsFace : Face :=
  {| text := Str "Show Chains"; fontSize := 16; color := "#ffffff";
     backgroundColor := "#FF0000"; cornerRadius := 20; overlay := None |}.

Definition chainFace (c : Chain.t) : Face :=
  faceOf (Chain.name c) (chainOptions (Chain.midiChannel c)).

(** The catalog view of the chains [cs]: the texts and the faces. *)
Definition catalogTexts (cs : list Chain.t) : gmap Z value :=
  fill Chain.name 1 31 0 cs {[0 := Str "Show Chains"]}.

Definition catalogFaces (cs : list Chain.t) : gmap Z Face :=
  fill chainFace 1 31 0 cs {[0 := showChainsFace]}.

Definition moduleFace (b : LayoutButton) : Face :=
  {| text := label b; fontSize := lb_fontSize b; color := textColor b;
     backgroundColor := lb_backgroundColor b; cornerRadius := 20;
     overlay := None |}.

Definition moduleState (b : LayoutButton) : ButtonState :=
  {| pressCallback := ModulePressed (label b) (module b);
     releaseCallback := None; info_type := Str "module";
     info_name := label b; info_role := Mod.role (module b) |}.

Definition headerState (c : Chain.t) : ButtonState :=
  {| pressCallback := CurrentChainPressed (Chain.name c);
     releaseCallback := None; info_type := Str "currentChain";
     info_name := Chain.name c; info_role := Undefined |}.

(** The detail view of the chain [c] whose modules gave [layout]. *)
Definition detailTexts (c : Chain.t) (layout : list LayoutButton) : gmap Z value :=
  fill label 2 30 0 layout (<[1 := Chain.name c]> {[0 := Str "Show Chains"]}).

Definition detailFaces (c : Chain.t) (layout : list LayoutButton) : gmap Z Face :=
  fill moduleFace 2 30 0 layout (<[1 := chainFace c]> {[0 := showChainsFace]}).

Definition detailStates (c : Chain.t) (layout : list LayoutButton)
  : gmap Z ButtonState :=
  fill moduleState 2 30 0 layout {[1 := headerState c]}.

(** The table of [#getColorForRole], on a lower-cased role. *)
Definition roleColor (r : string) : string :=
  if String.eqb r "source" then "#00008B"
  else if String.eqb r "proc" then "#FF8C00"
  else if String.eqb r "dest" then "#006400"
  else "#333333".

(** The layout entry of a module whose role is the string [r]. *)
Definition buttonOf (m : Mod.t) (r : string) : LayoutButton :=
  {| label := or (Mod.deviceName m) (Str "Unknown Device");
     lb_backgroundColor := roleColor (toLowerCase r);
     textColor := "#ffffff"; lb_fontSize := 12; module := m |}.


(** ** Sample documents and states *)

Definition blank : Device :=
  {| panel := ∅; brightness := 100; accepts := fun _ _ => true |}.

(** The controller once [#initialize] has opened the panel and reset it. *)
Definition started : Controller := resetDeck (created (Some blank)).

(** [{"name": n, "device": {"name": d}, "role": {r: {}}}] *)
Definition sideDoc (l : positive) (n d r : string) : value :=
  Obj l [("name", Str n);
         ("device", Obj (l + 1) [("name", Str d)]);
         ("role", Obj (l + 2) [(r, Obj (l + 3) [])])].

(** [{"id": i, "state": {"name": n}, "lanes": [{"cells": [{"items": items}]}]}] *)
Definition chainDoc (l : positive) (i : Z) (n : string) (items : list value) : value :=
  Obj l [("id", Num i);
         ("state", Obj (l + 1) [("name", Str n)]);
         ("lanes", Arr (l + 2)
            [Obj (l + 3) [("cells", Arr (l + 4)
               [Obj (l + 5) [("items", Arr (l + 6) items)]])]])].

Definition catalogDoc (cs : list (string * value)) : value :=
  Obj 1 [("chains", Obj 2 cs)].

(** One chain "Lead" with the modules "Synth A" and "Comp 1". *)
Definition leadDoc : value :=
  catalogDoc
    [("lead", chainDoc 10 1 "Lead"
        [Obj 20 [("L", sideDoc 21 "synth" "Synth A" "source")];
         Obj 30 [("L", sideDoc 31 "comp" "Comp 1" "proc")]])].

(** Two chains, "Drums" and "Bass". *)
Definition drumsBassDoc : value :=
  catalogDoc
    [("drums", chainDoc 10 1 "Drums" [Obj 20 [("L", sideDoc 21 "kick" "Kick" "source")]]);
     ("bass", chainDoc 40 2 "Bass" [Obj 50 [("L", sideDoc 51 "sub" "Sub" "dest")]])].

(** Two chains with distinct ids and the same name. *)
Definition twinsDoc : value :=
  catalogDoc
    [("a", chainDoc 10 1 "Loop" [Obj 20 [("L", sideDoc 21 "kick" "Kick" "source")]]);
     ("b", chainDoc 40 2 "Loop" [Obj 50 [("L", sideDoc 51 "sub" "Sub" "dest")]])].

(** A chain whose only module has no [role]. *)
Definition noRoleDoc : value :=
  catalogDoc
    [("solo", chainDoc 10 1 "Solo"
        [Obj 20 [("L", Obj 21 [("name", Str "mic");
                               ("device", Obj 22 [("name", Str "Mic")])])]])].

(** A chain whose [lanes] is the empty array. *)
Definition emptyLanesDoc : value :=
  catalogDoc [("a", Obj 10 [("state", Obj 11 [("name", Str "Drums")]);
                            ("lanes", Arr 12 [])])].

(** [{"chains": {}}] *)
Definition emptyDoc : value := catalogDoc [].

(** Thirty-five chains "c0" ... "c34" without modules. *)
Definition manyDoc : value :=
  catalogDoc
    ((fun i => let n := "c" ++ pretty (Z.of_nat i) in
               (n, Obj (Pos.of_nat (10 + 2 * i))
                     [("state", Obj (Pos.of_nat (11 + 2 * i)) [("name", Str n)])]))
       <$> seq 0 35).

(** Two chains, "Lead" and "Bass"; the module of "Lead" is a device that
    is itself called "Bass". *)
Definition crossDoc : value :=
  catalogDoc
    [("lead", chainDoc 10 1 "Lead" [Obj 20 [("L", sideDoc 21 "in" "Bass" "source")]]);
     ("bass", chainDoc 40 2 "Bass" [Obj 50 [("L", sideDoc 51 "sub" "Sub" "dest")]])].

(** The state after the document was loaded and the button of its first
    chain pressed. *)
Definition firstChainOpened (doc : value) : Controller :=
  final (handleKeyPress (KNum 1) (loadChainLayout doc started)).

(** ** The rest of the public methods *)

(** An entry of the list that [listStreamDecks] answers. *)
Record DeviceInfo : Type := {
  model : string;
  path : string
}.

(** [device.model.toLowerCase() === 'studio'] *)
Definition isStudio (device : DeviceInfo) : bool :=
  String.eqb (toLowerCase (model device)) "studio".

(** [list.join(sep)] *)
Fixpoint join (sep : string) (l : list string) : string :=
  match l with
  | [] => ""
  | [s] => s
  | s :: rest => String.append s (String.append sep (join sep rest))
  end.

(** [#initialize] (lines 35-68), run by the constructor: the controller
    it leaves and the error that its outer [catch] reported, if any.
    [openStreamDeck] answers the opened panel, or the message of the
    exception it raises. *)
Definition initialize (devices : list DeviceInfo)
  (openStreamDeck : string -> Device + string) : Controller * option error :=
  match devices with
  | [] => (created None, Some (Error "No Stream Deck devices found"))
  | _ :: _ =>
      match List.find isStudio devices with
      | None =>
          (created None,
           Some (Error (String.append
                          "No Stream Deck Studio found. Available devices: "
                          (join ", " (model <$> devices)))))
      | Some studioDevice =>
          match openStreamDeck (path studioDevice) with
          | inr message =>
              (created None,
               Some (Error (String.append "Could not open Stream Deck: " message)))
          | inl d => (resetDeck (created (Some d)), None)
          end
      end
  end.

(** [setBrightness] (lines 430-433) *)
Definition setBrightness (percent : Z) (st : Controller) : Controller :=
  match streamDeck st with
  | None => st
  | Some d =>
      emit (SetBrightness percent)
        (with_streamDeck
           (Some {| panel := panel d; brightness := percent; accepts := accepts d |}) st)
  end.


(** The events of a session, handled one after the other; a handler that
    raised leaves the fields as they were when it did. *)
Fixpoint run (evs : list Event) (st : Controller) : Controller :=
  match evs with
  | [] => st
  | ev :: rest => run rest (final (listen ev st))
  end.

(** ** More observations *)

(** Whether the opened panel takes [face] on button [index]; without a
    panel nothing is drawn. *)
Definition takes (st : Controller) (index : Z) (face : Face) : bool :=
  match streamDeck st with
  | Some d => accepts d index face
  | None => false
  end.

(** No registered action has a release callback. *)
Definition quiet (st : Controller) : Prop :=
  forall n b, buttonStates st !! n = Some b -> releaseCallback b = None.

(** No dial has a callback. *)
Definition dialsFree (st : Controller) : Prop :=
  encoderCallbacks st = {| left := noCallbacks; right := noCallbacks |}.

(** The brightness of the opened panel. *)
Definition brightnessOf (st : Controller) : option Z :=
  brightness <$> streamDeck st.


(** * Properties *)

(** ** What the methods leave alone *)

Lemma keeps_refl (st : Controller) : keeps st st.
Proof. by split. Qed.

Lemma keeps_trans (st1 st2 st3 : Controller) :
  keeps st1 st2 -> keeps st2 st3 -> keeps st1 st3.
Proof.
  intros [] []. split; try congruence. auto.
Qed.

Lemma calls_snoc (es : list Effect) (e : Effect) :
  calls (es ++ [e]) =
  (calls es ++ match e with Call cb args => [(cb, args)] | _ => [] end)%list.
Proof.
  unfold calls. rewrite omap_app. f_equal. by destruct e.
Qed.

Lemma keeps_resetDeck (st : Controller) : keeps st (resetDeck st).
Proof.
  unfold resetDeck. destruct (streamDeck st) as [d|] eqn:Hd; [|apply keeps_refl].
  split; try reflexivity.
  - cbn. by rewrite !calls_snoc, !app_nil_r.
  - unfold ready. rewrite Hd. cbn. auto.
Qed.

Lemma keeps_setButtonText (index : Z) (t : value) (o : TextOptions) (st : Controller) :
  keeps st (setButtonText index t o st).
Proof.
  unfold setButtonText. destruct (streamDeck st) as [d|] eqn:Hd; [|apply keeps_refl].
  destruct (accepts d index _); split; try reflexivity;
    try (cbn; by rewrite calls_snoc, app_nil_r).
  - unfold ready. rewrite Hd. cbn. auto.
  - unfold ready. cbn. auto.
Qed.

Lemma keeps_registerButtonAction (i : Z) (p : Callback) (r : option Callback)
  (ty n ro : value) (st : Controller) :
  keeps st (registerButtonAction i p r ty n ro st).
Proof. by split. Qed.

Lemma keeps_showChainButtons (cs : list Chain.t) (i : nat) (st : Controller) :
  keeps st (showChainButtons i cs st).
Proof.
  revert i st. induction cs as [|c cs IH]; intros i st;
    cbn [showChainButtons]; [apply keeps_refl|].
  destruct (i <? 31)%nat; [|apply keeps_refl].
  eapply keeps_trans; [apply keeps_setButtonText | apply IH].
Qed.

Lemma keeps_showChains (st : Controller) : keeps st (showChains st).
Proof.
  unfold showChains, createShowChainsButton.
  eapply keeps_trans; [apply keeps_resetDeck|].
  eapply keeps_trans; [apply keeps_setButtonText | apply keeps_showChainButtons].
Qed.

Lemma keeps_layoutButtons (layout : list LayoutButton) (i : nat) (st : Controller) :
  keeps st (layoutButtons i layout st).
Proof.
  revert i st. induction layout as [|b bs IH]; intros i st;
    cbn [layoutButtons]; [apply keeps_refl|].
  destruct (30 <=? i)%nat; [apply keeps_refl|].
  eapply keeps_trans; [apply keeps_setButtonText|].
  eapply keeps_trans; [apply keeps_registerButtonAction | apply IH].
Qed.

Lemma keeps_createCustomLayout (layout : list LayoutButton) (st : Controller) :
  keeps st (createCustomLayout layout st).
Proof.
  unfold createCustomLayout. destruct (streamDeck st); [|apply keeps_refl].
  apply keeps_layoutButtons.
Qed.

Lemma keeps_createChainNameButton (n : value) (st : Controller) :
  keeps st (final (createChainNameButton n st)).
Proof.
  unfold createChainNameButton. destruct (currentChain st); [|apply keeps_refl].
  cbn. eapply keeps_trans; [apply keeps_setButtonText | apply keeps_registerButtonAction].
Qed.

Lemma keeps_showModules (c : Chain.t) (st : Controller) :
  keeps st (final (showModules c st)).
Proof.
  unfold showModules. destruct (mapM layoutOf _); cbn; [|apply keeps_refl].
  apply keeps_createCustomLayout.
Qed.

(** [loadChain] changes the selected chain and nothing else of what
    [keeps] watches. *)
Lemma keeps_loadChain (c : Chain.t) (st : Controller) :
  keeps (with_currentChain (Some c) st) (final (loadChain c st)).
Proof.
  unfold loadChain.
  set (st1 := createShowChainsButton (resetDeck (with_currentChain (Some c) st))).
  assert (K1 : keeps (with_currentChain (Some c) st) st1).
  { eapply keeps_trans; [apply keeps_resetDeck | apply keeps_setButtonText]. }
  pose proof (keeps_createChainNameButton (Chain.name c) st1) as K2.
  destruct (createChainNameButton (Chain.name c) st1) as [st2|e st2]; cbn in K2.
  - eapply keeps_trans; [exact K1|]. eapply keeps_trans; [exact K2|].
    apply keeps_showModules.
  - cbn. eapply keeps_trans; [exact K1 | exact K2].
Qed.

Lemma loadChain_current (c : Chain.t) (st : Controller) :
  currentChain (final (loadChain c st)) = Some c.
Proof. by rewrite (keeps_current _ _ (keeps_loadChain c st)). Qed.

(** No press calls a registered callback, whatever the button and the
    state. *)
Lemma handleKeyPress_calls_nothing (k : key) (st : Controller) :
  calls (effects (final (handleKeyPress k st))) = calls (effects st) /\
  chains (final (handleKeyPress k st)) = chains st.
Proof.
  unfold handleKeyPress.
  assert (Hfind : forall t,
    calls (effects (final (match List.find (fun c => strict_eq (Chain.name c) t) (chains st) with
                           | Some chain => loadChain chain st
                           | None => Done st
                           end))) = calls (effects st) /\
    chains (final (match List.find (fun c => strict_eq (Chain.name c) t) (chains st) with
                           | Some chain => loadChain chain st
                           | None => Done st
                           end)) = chains st).
  { intros t. destruct (List.find _ _) as [c|]; [|done].
    destruct (keeps_loadChain c st) as [Hc _ _ He _]. by rewrite Hc, He. }
  assert (Hshow : calls (effects (showChains st)) = calls (effects st) /\
                  chains (showChains st) = chains st).
  { by destruct (keeps_showChains st). }
  destruct (isZero (getKeyIndex k)); [exact Hshow | apply Hfind].
Qed.

(** ** Role colours *)

Lemma getColorForRole_string (r : string) :
  getColorForRole (Str r) = Ok (roleColor (toLowerCase r)).
Proof.
  unfold getColorForRole, roleColor.
  repeat (case_match; [reflexivity|]). reflexivity.
Qed.

Lemma getColorForRole_not_string (role : value) :
  (forall r, role <> Str r) -> getColorForRole role = Throw TypeError.
Proof.
  intros Hrole. destruct role; try reflexivity.
  exfalso. eapply Hrole. reflexivity.
Qed.

Lemma getColorForRole_table :
  getColorForRole (Str "source") = Ok "#00008B" /\
  getColorForRole (Str "proc") = Ok "#FF8C00" /\
  getColorForRole (Str "dest") = Ok "#006400" /\
  getColorForRole (Str "mixer") = Ok "#333333" /\
  getColorForRole (Str "SOURCE") = Ok "#00008B".
Proof. repeat split. Qed.

Lemma firstRoleKey_shape (r : value) :
  firstRoleKey r = Undefined \/ exists k, firstRoleKey r = Str k.
Proof.
  unfold firstRoleKey.
  destruct (if truthy r then keys r else []) as [|k ks]; eauto.
Qed.

(** ** Roles after normalization *)

Lemma bind_Ok {A B : Type} (r : result A) (f : A -> result B) (b : B) :
  r ≫= f = Ok b -> exists a, r = Ok a /\ f a = Ok b.
Proof. destruct r as [a|e]; cbn; [eauto | discriminate]. Qed.

Lemma mapM_Ok {A B : Type} (f : A -> result B) (l : list A) (l' : list B) :
  mapM f l = Ok l' -> Forall2 (fun x y => f x = Ok y) l l'.
Proof.
  revert l'. induction l as [|x l IH]; intros l' H.
  - inversion H. constructor.
  - apply bind_Ok in H as (y & Hy & H). apply bind_Ok in H as (k & Hk & H).
    inversion H; subst. constructor; auto.
Qed.

Lemma flatMap_Forall {A : Type} (P : A -> Prop) (v : value)
  (f : value -> result (list A)) (ms : list A) :
  (forall x ys, f x = Ok ys -> Forall P ys) ->
  flatMap v f = Ok ms -> Forall P ms.
Proof.
  intros Hf H. destruct v as [| | | | |loc elems|]; try discriminate.
  unfold flatMap in H.
  destruct (mapM f elems) as [res|] eqn:Hm; [|discriminate].
  inversion H; subst. clear H. apply mapM_Ok in Hm.
  induction Hm as [|x ys xs yss Hx _ IH]; cbn; [constructor|].
  apply Forall_app. split; [by eapply Hf | exact IH].
Qed.

Lemma moduleOf_role (cell item : value) (ch : string) (m : Mod.t) :
  moduleOf cell item ch = Ok m -> roleShape m.
Proof.
  unfold moduleOf. intros H.
  repeat (apply bind_Ok in H as (? & _ & H)).
  inversion H; subst. apply firstRoleKey_shape.
Qed.

Lemma itemModules_roles (cell item : value) (ms : list Mod.t) :
  itemModules cell item = Ok ms -> Forall roleShape ms.
Proof.
  unfold itemModules. intros H. apply bind_Ok in H as (chs & _ & H).
  apply mapM_Ok in H. induction H as [|ch m chs ms Hm _ IH]; constructor; [|done].
  by eapply moduleOf_role.
Qed.

Lemma cellModules_roles (cell : value) (ms : list Mod.t) :
  cellModules cell = Ok ms -> Forall roleShape ms.
Proof.
  unfold cellModules. intros H. apply bind_Ok in H as (items & _ & H).
  destruct (nullish items).
  - inversion H. constructor.
  - eapply flatMap_Forall; [|exact H]. apply itemModules_roles.
Qed.

Lemma chainModules_roles (chain : value) (ms : list Mod.t) :
  chainModules chain = Ok ms -> Forall roleShape ms.
Proof.
  unfold chainModules. intros H. apply bind_Ok in H as (lanes & _ & H).
  destruct (nullish lanes); [inversion H; constructor|].
  apply bind_Ok in H as (lane & _ & H). apply bind_Ok in H as (cells & _ & H).
  destruct (nullish cells); [inversion H; constructor|].
  eapply flatMap_Forall; [|exact H]. apply cellModules_roles.
Qed.

(** Every module of a normalized catalog has a string or [undefined]
    for its role, and every chain a name that is not falsy. *)
Lemma normalize_shape (data : value) (cs : list Chain.t) :
  normalize data = Ok cs ->
  Forall (fun c => truthy (Chain.name c) = true /\
                   Forall roleShape (Chain.modules c)) cs.
Proof.
  unfold normalize. intros H. apply bind_Ok in H as (chains & _ & H).
  apply bind_Ok in H as (vs & _ & H). apply mapM_Ok in H.
  induction H as [|v c vs cs Hc _ IH]; constructor; [|done].
  unfold normalizeChain in Hc.
  apply bind_Ok in Hc as (state & _ & Hc). apply bind_Ok in Hc as (name & _ & Hc).
  apply bind_Ok in Hc as (id & _ & Hc). apply bind_Ok in Hc as (mc & _ & Hc).
  apply bind_Ok in Hc as (cond & _ & Hc). apply bind_Ok in Hc as (active & _ & Hc).
  apply bind_Ok in Hc as (ms & Hms & Hc). inversion Hc; subst. cbn. split.
  - unfold or. by destruct (truthy name) eqn:Hn.
  - by eapply chainModules_roles.
Qed.

(** The colour of a module of a normalized catalog: the table on the
    lower-cased role when the side had one, a [TypeError] when it had
    none. *)
Lemma normalized_module_color (m : Mod.t) :
  roleShape m ->
  (Mod.role m = Undefined /\ getColorForRole (Mod.role m) = Throw TypeError) \/
  (exists r, Mod.role m = Str r /\
             getColorForRole (Mod.role m) = Ok (roleColor (toLowerCase r))).
Proof.
  intros [Hu|[r Hr]].
  - left. by rewrite Hu.
  - right. exists r. by rewrite Hr, getColorForRole_string.
Qed.

(** ** The loops, as maps *)

Lemma fill_lookup_miss {X A : Type} (f : X -> A) (off : Z) (cap : nat)
  (xs : list X) (i : nat) (m : gmap Z A) (j : Z) :
  j < Z.of_nat i + off \/ Z.of_nat (Nat.max i (Nat.min (i + length xs) cap)) + off <= j ->
  fill f off cap i xs m !! j = m !! j.
Proof.
  revert i m. induction xs as [|x xs IH]; intros i m Hj; cbn [fill]; [done|].
  destruct (Nat.ltb_spec i cap) as [Hlt|Hge]; [|done].
  rewrite IH.
  - apply lookup_insert_ne. cbn [length] in Hj. lia.
  - cbn [length] in Hj. lia.
Qed.

Lemma fill_lookup_hit {X A : Type} (f : X -> A) (off : Z) (cap : nat)
  (xs : list X) (i : nat) (m : gmap Z A) (k : nat) (x : X) :
  xs !! k = Some x -> (i + k < cap)%nat ->
  fill f off cap i xs m !! (Z.of_nat (i + k) + off) = Some (f x).
Proof.
  revert i m k. induction xs as [|y xs IH]; intros i m k Hk Hcap; [done|].
  cbn [fill]. destruct (Nat.ltb_spec i cap) as [Hlt|Hge]; [|lia].
  destruct k as [|k]; cbn in Hk.
  - inversion Hk; subst. rewrite fill_lookup_miss by lia.
    rewrite Nat.add_0_r. apply lookup_insert_eq.
  - replace (i + S k)%nat with (S i + k)%nat by lia. apply IH; [done | lia].
Qed.

(** ** The methods on a panel that never fails *)

Lemma ready_device (st : Controller) :
  ready st -> exists d, streamDeck st = Some d /\ forall i f, accepts d i f = true.
Proof. unfold ready. destruct (streamDeck st); [eauto|tauto]. Qed.

Lemma resetDeck_ready (st : Controller) :
  ready st ->
  buttonTexts (resetDeck st) = ∅ /\ drawn (resetDeck st) = ∅ /\
  buttonStates (resetDeck st) = ∅.
Proof.
  intros (d & Hd & _)%ready_device. unfold resetDeck, drawn. by rewrite Hd.
Qed.

Lemma setButtonText_ready (index : Z) (t : value) (o : TextOptions) (st : Controller) :
  ready st ->
  buttonTexts (setButtonText index t o st) = <[index := t]> (buttonTexts st) /\
  drawn (setButtonText index t o st) = <[index := faceOf t o]> (drawn st) /\
  buttonStates (setButtonText index t o st) = buttonStates st /\
  effects (setButtonText index t o st) = (effects st ++ [FillKeyBuffer index (faceOf t o)])%list.
Proof.
  intros (d & Hd & Hacc)%ready_device. unfold setButtonText, drawn.
  by rewrite Hd, Hacc.
Qed.

Lemma showChainButtons_ready (cs : list Chain.t) (i : nat) (st : Controller) :
  ready st ->
  buttonTexts (showChainButtons i cs st) = fill Chain.name 1 31 i cs (buttonTexts st) /\
  drawn (showChainButtons i cs st) = fill chainFace 1 31 i cs (drawn st) /\
  buttonStates (showChainButtons i cs st) = buttonStates st.
Proof.
  revert i st. induction cs as [|c cs IH]; intros i st Hready;
    cbn [showChainButtons fill]; [done|].
  destruct (i <? 31)%nat; [|done].
  set (st1 := setButtonText _ _ _ st).
  destruct (setButtonText_ready (Z.of_nat i + 1) (Chain.name c)
              (chainOptions (Chain.midiChannel c)) st Hready) as (Ht & Hp & Hs & _).
  destruct (IH (S i) st1) as (Ht' & Hp' & Hs').
  { by apply (keeps_ready _ _ (keeps_setButtonText _ _ _ st)). }
  subst st1. rewrite Ht', Hp', Hs', Ht, Hp, Hs. done.
Qed.

(** On a panel that never fails, [showChains] draws the catalog view and
    registers nothing. *)
Lemma showChains_ready (st : Controller) :
  ready st ->
  buttonTexts (showChains st) = catalogTexts (chains st) /\
  drawn (showChains st) = catalogFaces (chains st) /\
  buttonStates (showChains st) = ∅.
Proof.
  intros Hready. unfold showChains, createShowChainsButton.
  set (st0 := resetDeck st).
  assert (H0 : ready st0) by by apply (keeps_ready _ _ (keeps_resetDeck st)).
  destruct (resetDeck_ready st Hready) as (Ht0 & Hp0 & Hs0). fold st0 in Ht0, Hp0, Hs0.
  set (o := {| opt_fontSize := Some 16; opt_color := _; opt_backgroundColor := _;
               opt_cornerRadius := _; opt_midiChannel := _ |}).
  destruct (setButtonText_ready 0 (Str "Show Chains") o st0 H0) as (Ht1 & Hp1 & Hs1 & _).
  set (st1 := setButtonText 0 (Str "Show Chains") o st0) in *.
  assert (H1 : ready st1) by by apply (keeps_ready _ _ (keeps_setButtonText _ _ _ st0)).
  destruct (showChainButtons_ready (chains st1) 0 st1 H1) as (Ht & Hp & Hs).
  rewrite Ht, Hp, Hs, Ht1, Hp1, Hs1, Ht0, Hp0, Hs0.
  assert (Hc : chains st1 = chains st).
  { subst st1 st0.
    by rewrite (keeps_chains _ _ (keeps_setButtonText _ _ _ _)),
               (keeps_chains _ _ (keeps_resetDeck _)). }
  rewrite Hc. done.
Qed.

Lemma layoutButtons_ready (layout : list LayoutButton) (i : nat) (st : Controller) :
  ready st ->
  buttonTexts (layoutButtons i layout st) = fill label 2 30 i layout (buttonTexts st) /\
  drawn (layoutButtons i layout st) = fill moduleFace 2 30 i layout (drawn st) /\
  buttonStates (layoutButtons i layout st)
    = fill moduleState 2 30 i layout (buttonStates st).
Proof.
  revert i st. induction layout as [|b bs IH]; intros i st Hready;
    cbn [layoutButtons fill]; [done|].
  destruct (Nat.leb_spec 30 i) as [Hge|Hlt].
  { destruct (Nat.ltb_spec i 30); [lia|done]. }
  destruct (Nat.ltb_spec i 30); [|lia].
  set (o := {| opt_fontSize := _; opt_color := _; opt_backgroundColor := _;
               opt_cornerRadius := _; opt_midiChannel := _ |}).
  destruct (setButtonText_ready (Z.of_nat i + 2) (label b) o st Hready)
    as (Ht & Hp & Hs & _).
  set (st1 := setButtonText (Z.of_nat i + 2) (label b) o st) in *.
  set (st2 := registerButtonAction _ _ _ _ _ _ st1).
  assert (H2 : ready st2).
  { apply (keeps_ready st1); [apply keeps_registerButtonAction|].
    by apply (keeps_ready _ _ (keeps_setButtonText _ _ _ st)). }
  destruct (IH (S i) st2 H2) as (Ht' & Hp' & Hs').
  rewrite Ht', Hp', Hs'. subst st2. cbn [registerButtonAction].
  unfold registerButtonAction, drawn in *. cbn. rewrite Ht, Hp, Hs. done.
Qed.

Lemma layoutOf_string (m : Mod.t) (r : string) :
  Mod.role m = Str r -> layoutOf m = Ok (buttonOf m r).
Proof.
  intros Hr. unfold layoutOf. rewrite Hr, getColorForRole_string. reflexivity.
Qed.

Lemma layoutOf_not_string (m : Mod.t) :
  (forall r, Mod.role m <> Str r) -> layoutOf m = Throw TypeError.
Proof.
  intros Hr. unfold layoutOf. by rewrite getColorForRole_not_string.
Qed.

Lemma mapM_layoutOf_strings (ms : list Mod.t) :
  Forall (fun m => exists r, Mod.role m = Str r) ms ->
  exists layout, mapM layoutOf ms = Ok layout /\
                 Forall2 (fun m b => exists r, Mod.role m = Str r /\ b = buttonOf m r)
                   ms layout.
Proof.
  induction 1 as [|m ms [r Hr] _ (layout & Hl & Hall)].
  - exists []. split; [reflexivity | constructor].
  - exists (buttonOf m r :: layout). split.
    + cbn. rewrite (layoutOf_string m r Hr). cbn. rewrite Hl. reflexivity.
    + constructor; eauto.
Qed.

Lemma layoutOf_throws (m : Mod.t) (e : error) :
  layoutOf m = Throw e -> e = TypeError.
Proof.
  unfold layoutOf. destruct (Mod.role m) as [| | | |r| |]; try (cbn; congruence).
  rewrite getColorForRole_string. cbn. discriminate.
Qed.

Lemma mapM_layoutOf_missing (ms : list Mod.t) :
  Exists (fun m => forall r, Mod.role m <> Str r) ms ->
  mapM layoutOf ms = Throw TypeError.
Proof.
  induction 1 as [m ms Hm | m ms _ IH]; cbn.
  - by rewrite (layoutOf_not_string m Hm).
  - destruct (layoutOf m) as [b|e] eqn:Hb; cbn.
    + by rewrite IH.
    + by rewrite (layoutOf_throws m e Hb).
Qed.

(** On a panel that never fails, [loadChain] of a chain whose modules
    have a layout ends in the detail view of that chain. *)
Lemma loadChain_ready (c : Chain.t) (layout : list LayoutButton) (st : Controller) :
  ready st -> mapM layoutOf (Chain.modules c) = Ok layout ->
  exists st', loadChain c st = Done st' /\
    currentChain st' = Some c /\ chains st' = chains st /\ ready st' /\
    buttonTexts st' = detailTexts c layout /\
    drawn st' = detailFaces c layout /\
    buttonStates st' = detailStates c layout.
Proof.
  intros Hready Hlayout.
  pose proof (keeps_loadChain c st) as K. pose proof (loadChain_current c st) as Hcur.
  unfold loadChain in *.
  set (sc := with_currentChain (Some c) st) in *.
  assert (Hc : ready sc) by exact Hready.
  set (s0 := resetDeck sc) in *.
  assert (H0 : ready s0) by by apply (keeps_ready _ _ (keeps_resetDeck sc)).
  destruct (resetDeck_ready sc Hc) as (Ht0 & Hp0 & Hs0). fold s0 in Ht0, Hp0, Hs0.
  unfold createShowChainsButton in *.
  set (o := {| opt_fontSize := Some 16; opt_color := _; opt_backgroundColor := _;
               opt_cornerRadius := _; opt_midiChannel := _ |}) in *.
  destruct (setButtonText_ready 0 (Str "Show Chains") o s0 H0) as (Ht1 & Hp1 & Hs1 & _).
  set (s1 := setButtonText 0 (Str "Show Chains") o s0) in *.
  assert (H1 : ready s1) by by apply (keeps_ready _ _ (keeps_setButtonText _ _ _ s0)).
  assert (Hcur1 : currentChain s1 = Some c).
  { subst s1 s0.
    by rewrite (keeps_current _ _ (keeps_setButtonText _ _ _ _)),
               (keeps_current _ _ (keeps_resetDeck _)). }
  unfold createChainNameButton in *. rewrite Hcur1 in *.
  destruct (setButtonText_ready 1 (Chain.name c) (chainOptions (Chain.midiChannel c)) s1 H1)
    as (Ht2 & Hp2 & Hs2 & _).
  set (s2 := setButtonText 1 (Chain.name c) (chainOptions (Chain.midiChannel c)) s1) in *.
  assert (H2 : ready s2) by by apply (keeps_ready _ _ (keeps_setButtonText _ _ _ s1)).
  set (s3 := registerButtonAction 1 _ _ _ _ _ s2) in *.
  assert (H3 : ready s3) by exact H2.
  unfold showModules in *. rewrite Hlayout in *. cbn [final] in *.
  eexists. split; [reflexivity|].
  destruct K as [Kc _ _ _ _].
  split; [exact Hcur|]. split; [exact Kc|].
  unfold createCustomLayout in *.
  destruct (ready_device s3 H3) as (d & Hd & _). rewrite Hd in *.
  split.
  { by apply (keeps_ready _ _ (keeps_layoutButtons layout 0%nat s3)). }
  destruct (layoutButtons_ready layout 0 s3 H3) as (Ht & Hp & Hs).
  rewrite Ht, Hp, Hs. unfold detailTexts, detailFaces, detailStates.
  subst s3. unfold registerButtonAction, drawn in *. cbn.
  rewrite Ht2, Hp2, Hs2, Ht1, Hp1, Hs1, Ht0, Hp0, Hs0.
  rewrite insert_empty. done.
Qed.

(** A chain with a module whose role is not a string cannot be opened:
    [loadChain] raises once the header is in place. *)
Lemma loadChain_missing_role (c : Chain.t) (st : Controller) :
  Exists (fun m => forall r, Mod.role m <> Str r) (Chain.modules c) ->
  exists st', loadChain c st = Threw TypeError st' /\ currentChain st' = Some c.
Proof.
  intros Hmissing. pose proof (loadChain_current c st) as Hcur.
  unfold loadChain in *.
  set (s1 := createShowChainsButton (resetDeck (with_currentChain (Some c) st))) in *.
  assert (Hcur1 : currentChain s1 = Some c).
  { subst s1. unfold createShowChainsButton.
    by rewrite (keeps_current _ _ (keeps_setButtonText _ _ _ _)),
               (keeps_current _ _ (keeps_resetDeck _)). }
  unfold createChainNameButton in *. rewrite Hcur1 in *.
  unfold showModules in *. rewrite (mapM_layoutOf_missing _ Hmissing) in *.
  eexists. split; [reflexivity | exact Hcur].
Qed.

(** ** Modules without a role *)

(** C3: a module that the normalization builds from a side without
    [role] carries [role: undefined]; [#getColorForRole] raises a
    [TypeError] on it instead of answering the default gray, and the press
    that opens the chain ends with that exception after the header has
    been drawn and before any module button is. *)
Theorem C3_missing_role_throws :
  (exists c m, normalize noRoleDoc = Ok [c] /\ Chain.modules c = [m] /\
               Mod.role m = Undefined) /\
  getColorForRole Undefined = Throw TypeError /\
  exists st,
    handleKeyPress (KNum 1) (loadChainLayout noRoleDoc started) = Threw TypeError st /\
    buttonTexts st = <[1 := Str "Solo"]> ({[0 := Str "Show Chains"]}).
Proof.
  split; [do 2 eexists; repeat split|]. split; [reflexivity|].
  eexists. split; [vm_compute; reflexivity|].
  apply map_eq. intros i. vm_compute buttonTexts.
  reflexivity.
Qed.

(** ** The catalog view *)

(** C2, as the claim has it, fails on thirty-five chains: button 2 does
    not hold the first chain, and the thirty-first chain has a button. *)
Lemma C2_slots_do_not_start_at_2 :
  let st := loadChainLayout manyDoc started in
  length (chains st) = 35%nat /\
  buttonTexts st !! 1 = Some (Str "c0") /\
  buttonTexts st !! 2 = Some (Str "c1") /\
  buttonTexts st !! 31 = Some (Str "c30") /\
  ~ (forall (i : nat) (c : Chain.t), chains st !! i = Some c ->
       ((i < 30)%nat -> buttonTexts st !! (Z.of_nat i + 2) = Some (Chain.name c)) /\
       ((30 <= i)%nat -> forall j, buttonTexts st !! j <> Some (Chain.name c))).
Proof.
  split; [reflexivity|]. split; [reflexivity|]. split; [reflexivity|].
  split; [reflexivity|]. intros Hclaim.
  destruct (chains (loadChainLayout manyDoc started) !! 30%nat) as [c|] eqn:Hc;
    [|vm_compute in Hc; discriminate].
  destruct (Hclaim 30%nat c Hc) as [_ Hdropped].
  apply (Hdropped ltac:(lia) 31).
  vm_compute in Hc. inversion Hc; subst c. vm_compute. reflexivity.
Qed.

(** C2, amended: on a panel that never fails, the catalog view puts
    "Show Chains" on button 0 and the chain at position [i] of the
    catalog, for every [i] below 31, on button [i + 1] with its name and
    the brown chain face; no other button gets a text or a face.  With
    thirty-five chains these are the 31 buttons 1..31. *)
Theorem C2_catalog_slots (st : Controller) :
  ready st ->
  let st' := showChains st in
  (buttonTexts st' !! 0 = Some (Str "Show Chains") /\
   drawn st' !! 0 = Some showChainsFace) /\
  (forall (i : nat) (c : Chain.t), chains st !! i = Some c -> (i < 31)%nat ->
     buttonTexts st' !! (Z.of_nat i + 1) = Some (Chain.name c) /\
     drawn st' !! (Z.of_nat i + 1) = Some (chainFace c) /\
     backgroundColor (chainFace c) = "#8B4513") /\
  (forall j : Z, j < 0 \/ Z.of_nat (Nat.min (length (chains st)) 31) < j ->
     buttonTexts st' !! j = None /\ drawn st' !! j = None).
Proof.
  intros Hready. cbn zeta.
  destruct (showChains_ready st Hready) as (Ht & Hp & _). rewrite Ht, Hp.
  unfold catalogTexts, catalogFaces. repeat split.
  - rewrite fill_lookup_miss by lia. apply lookup_singleton_eq.
  - rewrite fill_lookup_miss by lia. apply lookup_singleton_eq.
  - by apply (fill_lookup_hit Chain.name 1 31 (chains st) 0 _ i c).
  - by apply (fill_lookup_hit chainFace 1 31 (chains st) 0 _ i c).
  - rewrite fill_lookup_miss by lia. apply lookup_singleton_ne. lia.
  - rewrite fill_lookup_miss by lia. apply lookup_singleton_ne. lia.
Qed.

Lemma C2_catalog_slots_witness :
  ready (with_chains [Chain.mk (Str "Drums") (Num 1) Undefined (Bool false) []] started) /\
  buttonTexts (showChains
     (with_chains [Chain.mk (Str "Drums") (Num 1) Undefined (Bool false) []] started))
    !! 1 = Some (Str "Drums").
Proof.
  assert (Hready : ready (with_chains
            [Chain.mk (Str "Drums") (Num 1) Undefined (Bool false) []] started)).
  { intros index face. reflexivity. }
  split; [exact Hready|].
  exact (proj1 (proj1 (proj2 (C2_catalog_slots _ Hready)) 0%nat _ eq_refl ltac:(lia))).
Defined.

(** ** Loading a catalog *)

Lemma get_opt_ok (v : value) (f : string) : exists w, get_opt v f = Ok w.
Proof. destruct v; cbn; eauto. Qed.

(** A chain object without [lanes] (and so without cells, items and
    modules) is normalized to a chain without modules; a missing [state]
    gives the name "Unnamed Chain", a missing [cond] an inactive chain. *)
Lemma normalizeChain_without_lanes (l : positive) (fields : list (string * value)) :
  nullish (own "lanes" fields) = true ->
  exists c, normalizeChain (Obj l fields) = Ok c /\
            Chain.modules c = [] /\
            Chain.id c = own "id" fields /\
            (nullish (own "state" fields) = true ->
             Chain.name c = Str "Unnamed Chain" /\ Chain.midiChannel c = Undefined) /\
            (nullish (own "cond" fields) = true -> Chain.active c = Bool false).
Proof.
  intros Hlanes. unfold normalizeChain, chainModules. cbn [get mbind result_bind].
  rewrite Hlanes.
  destruct (get_opt_ok (own "state" fields) "name") as [n Hn].
  destruct (get_opt_ok (own "state" fields) "midiChannel") as [mc Hmc].
  destruct (get_opt_ok (own "cond" fields) "active") as [a Ha].
  rewrite Hn, Hmc, Ha. cbn.
  eexists. split; [reflexivity|]. cbn.
  split; [reflexivity|]. split; [reflexivity|]. split.
  - intros Hs. unfold get_opt in Hn, Hmc. rewrite Hs in Hn, Hmc.
    inversion Hn. by inversion Hmc.
  - intros Hc. unfold get_opt in Ha. rewrite Hc in Ha. by inversion Ha.
Qed.

(** A side without [device], [role], [midi] and [tags] still gives a
    module: the fields stay [undefined], and the placeholder
    "Unknown Device" is only put in when the layout is built. *)
Lemma moduleOf_bare_side (l1 l2 l3 : positive) (cellFields : list (string * value)) :
  let item := Obj l2 [("L", Obj l3 [])] in
  itemModules (Obj l1 cellFields) item
    = Ok [Mod.mk Undefined Undefined Undefined Undefined "L" Undefined Undefined
            (own "ab" cellFields)] /\
  label (buttonOf (Mod.mk Undefined Undefined Undefined Undefined "L" Undefined
                     Undefined (own "ab" cellFields)) "x") = Str "Unknown Device".
Proof. split; reflexivity. Qed.

(** C5: the load of a document in which a chain has [lanes: []] fails as
    a whole: reading [cells] of the missing first lane raises a
    [TypeError], which [loadChainLayout] catches and reports, keeping the
    catalog it had. *)
Theorem C5_empty_lanes_fail_the_load (st : Controller) :
  normalize emptyLanesDoc = Throw TypeError /\
  loadChainLayout emptyLanesDoc st = emit (LoadError TypeError) st /\
  chains (loadChainLayout emptyLanesDoc st) = chains st.
Proof. repeat split. Qed.

(** C4, as the claim has it, fails: after "Drums" and "Bass" were
    loaded, the load of a document without chains leaves no catalog. *)
Lemma C4_empty_load_drops_the_catalog :
  let st := loadChainLayout drumsBassDoc started in
  Chain.name <$> chains st = [Str "Drums"; Str "Bass"] /\
  normalize emptyDoc = Ok [] /\
  chains (loadChainLayout emptyDoc st) <> chains st.
Proof. repeat split. cbn. discriminate. Qed.

(** C4, amended: a load without chains reports the error "No chains
    found in the JSON file." and leaves the catalog empty, touching
    neither the panel nor the button tables nor the selected chain; a
    load that raises while the document is normalized reports the
    exception and keeps every field; a load with chains installs exactly
    the normalized chains and shows them. *)
Theorem C4_load_outcomes (data : value) (st : Controller) :
  let st' := loadChainLayout data st in
  match normalize data with
  | Ok [] =>
      chains st' = [] /\
      effects st'
        = (effects st ++ [LoadError (Error "No chains found in the JSON file.")])%list /\
      streamDeck st' = streamDeck st /\ buttonTexts st' = buttonTexts st /\
      buttonStates st' = buttonStates st /\ currentChain st' = currentChain st
  | Throw e => st' = emit (LoadError e) st /\ chains st' = chains st
  | Ok (c :: cs) =>
      st' = showChains (with_chains (c :: cs) st) /\ chains st' = c :: cs
  end.
Proof.
  cbn zeta. unfold loadChainLayout.
  destruct (normalize data) as [[|c cs]|e]; repeat split.
  apply (keeps_chains _ _ (keeps_showChains (with_chains (c :: cs) st))).
Qed.

(** ** Presses *)

Lemma handleKeyPress_zero (k : key) (st : Controller) :
  isZero (getKeyIndex k) = true -> handleKeyPress k st = Done (showChains st).
Proof. intros Hz. unfold handleKeyPress. by rewrite Hz. Qed.

Lemma handleKeyPress_nonzero (k : key) (st : Controller) :
  isZero (getKeyIndex k) = false ->
  handleKeyPress k st =
  match List.find (fun c => strict_eq (Chain.name c) (getButtonText (getKeyIndex k) st))
          (chains st) with
  | Some chain => loadChain chain st
  | None => Done st
  end.
Proof. intros Hz. unfold handleKeyPress. by rewrite Hz. Qed.

(** C7, as the claim has it, fails: with the catalog still empty after
    the load of a document without chains, a press on button 0 draws the
    "Show Chains" button on the blank panel. *)
Lemma C7_button_0_draws_on_empty_catalog :
  let st := loadChainLayout emptyDoc started in
  chains st = [] /\ drawn st = ∅ /\
  exists st', handleKeyPress (KNum 0) st = Done st' /\
              drawn st' !! 0 = Some showChainsFace /\ drawn st' <> drawn st.
Proof.
  split; [reflexivity|]. split; [reflexivity|].
  eexists. split; [reflexivity|]. split; [reflexivity|].
  intros Heq. apply (f_equal (fun m => m !! 0)) in Heq. vm_compute in Heq.
  discriminate.
Qed.

(** C7, amended: with an empty catalog, a press whose index is not 0
    does not raise and leaves every field and the panel as they were; so
    does a press on button 0 when no panel is opened.  On an opened panel
    that never fails, a press on button 0 does not raise either: it runs
    [showChains], which calls no callback, keeps the catalog empty, and
    leaves exactly the "Show Chains" button 0 drawn and no action
    registered.  What a press on button 0 does when a write to the panel
    fails is left open. *)
Theorem C7_presses_on_empty_catalog (k : key) (st : Controller) :
  chains st = [] ->
  (isZero (getKeyIndex k) = false -> handleKeyPress k st = Done st) /\
  (isZero (getKeyIndex k) = true -> streamDeck st = None ->
   handleKeyPress k st = Done st) /\
  (isZero (getKeyIndex k) = true -> ready st ->
   handleKeyPress k st = Done (showChains st) /\
   chains (showChains st) = [] /\
   calls (effects (showChains st)) = calls (effects st) /\
   buttonTexts (showChains st) = {[0 := Str "Show Chains"]} /\
   drawn (showChains st) = {[0 := showChainsFace]} /\
   buttonStates (showChains st) = ∅).
Proof.
  intros Hempty. split; [|split].
  - intros Hz. rewrite handleKeyPress_nonzero by done. by rewrite Hempty.
  - intros Hz Hnone. rewrite handleKeyPress_zero by done. f_equal.
    unfold showChains, createShowChainsButton, resetDeck, setButtonText.
    rewrite Hnone. cbn. by rewrite Hnone, Hempty.
  - intros Hz Hready. split; [by apply handleKeyPress_zero|].
    split; [by rewrite (keeps_chains _ _ (keeps_showChains st))|].
    split; [apply (keeps_calls _ _ (keeps_showChains st))|].
    destruct (showChains_ready st Hready) as (Ht & Hp & Hs).
    rewrite Ht, Hp, Hs, Hempty. done.
Qed.

Lemma C7_presses_on_empty_catalog_witness :
  (chains started = [] /\ isZero (getKeyIndex (KControl (Some 7))) = false /\
   handleKeyPress (KControl (Some 7)) started = Done started) /\
  (chains (created None) = [] /\ isZero (getKeyIndex (KNum 0)) = true /\
   streamDeck (created None) = None /\
   handleKeyPress (KNum 0) (created None) = Done (created None)) /\
  (ready started /\ drawn (showChains started) = {[0 := showChainsFace]}).
Proof.
  assert (Hempty : chains started = []) by reflexivity.
  assert (Hready : ready started) by (intros index face; reflexivity).
  split; [|split].
  - split; [exact Hempty|]. split; [reflexivity|].
    exact (proj1 (C7_presses_on_empty_catalog (KControl (Some 7)) started Hempty)
             eq_refl).
  - split; [reflexivity|]. split; [reflexivity|]. split; [reflexivity|].
    exact (proj1 (proj2 (C7_presses_on_empty_catalog (KNum 0) (created None) eq_refl))
             eq_refl eq_refl).
  - split; [exact Hready|].
    exact (proj1 (proj2 (proj2 (proj2 (proj2
             (proj2 (proj2 (C7_presses_on_empty_catalog (KNum 0) started Hempty))
                eq_refl Hready)))))).
Defined.

(** ** Releases and dials *)

Lemma handleKeyRelease_control (index : option Z) (st : Controller) :
  handleKeyRelease (KControl index) st = st.
Proof. reflexivity. Qed.

Lemma handleKeyRelease_number (n : Z) (st : Controller) :
  handleKeyRelease (KNum n) st =
  match buttonStates st !! n with
  | Some b => invoke (releaseCallback b) [AKey (KNum n)] st
  | None => st
  end.
Proof. reflexivity. Qed.

(** C9: a press and a release with the control record of button 5 are
    not resolved alike.  [#handleKeyPress] reads the record's [index] and
    so treats it as the bare 5; [#handleKeyRelease] converts the record
    with [Number], gets [NaN], finds no entry and does not call the
    release callback that the bare 5 reaches. *)
Theorem C9_release_ignores_control_index :
  let st := registerButtonAction 5 (Handler 0) (Some (Handler 1))
              (Str "custom") Undefined Undefined started in
  getKeyIndex (KControl (Some 5)) = getKeyIndex (KNum 5) /\
  handleKeyPress (KControl (Some 5)) st = handleKeyPress (KNum 5) st /\
  Number (KControl (Some 5)) = KNaN /\
  handleKeyRelease (KNum 5) st = emit (Call (Handler 1) [AKey (KNum 5)]) st /\
  handleKeyRelease (KControl (Some 5)) st = st.
Proof. repeat split. Qed.

(** C10: a dial event with id 0 reaches the callbacks registered for
    the left dial and an event with any other id those of the right dial:
    the handler calls that callback once, after the calls made before,
    with the rotation for a turn and without argument for a push or a
    release, and calls nothing else; when none is registered no call is
    made and the state is left as it was.  No handler changes any other
    field.  Registration splits the ids the same way. *)
Theorem C10_dial_routing (encoder rotation : Z) (st : Controller) :
  let binding := if decide (encoder = 0) then left (encoderCallbacks st)
                 else right (encoderCallbacks st) in
  (calls (effects (handleEncoderRotate encoder rotation st))
     = (calls (effects st) ++ fired (rotate binding) [ANum rotation])%list /\
   calls (effects (handleEncoderPress encoder st))
     = (calls (effects st) ++ fired (press binding) [])%list /\
   calls (effects (handleEncoderRelease encoder st))
     = (calls (effects st) ++ fired (release binding) [])%list) /\
  handleEncoderRotate encoder rotation st
    = match rotate binding with
      | Some cb => emit (Call cb [ANum rotation]) st
      | None => st
      end /\
  handleEncoderPress encoder st
    = match press binding with
      | Some cb => emit (Call cb []) st
      | None => st
      end /\
  handleEncoderRelease encoder st
    = match release binding with
      | Some cb => emit (Call cb []) st
      | None => st
      end /\
  (besidesEffects (handleEncoderRotate encoder rotation st) = besidesEffects st /\
   besidesEffects (handleEncoderPress encoder st) = besidesEffects st /\
   besidesEffects (handleEncoderRelease encoder st) = besidesEffects st) /\
  forall (target : Z) (r p q : option Callback),
    let st' := registerEncoderActions target r p q st in
    let binding' := if decide (encoder = 0) then left (encoderCallbacks st')
                    else right (encoderCallbacks st') in
    binding' = if decide (encoder = 0 <-> target = 0)
               then {| rotate := r; press := p; release := q |}
               else binding.
Proof.
  cbn zeta.
  assert (Hcalls : forall cb args,
            calls (effects (invoke cb args st)) = (calls (effects st) ++ fired cb args)%list).
  { intros [f|] args; cbn; [by rewrite calls_snoc | by rewrite app_nil_r]. }
  assert (Hframe : forall cb args,
            besidesEffects (invoke cb args st) = besidesEffects st).
  { by intros [f|] args. }
  unfold handleEncoderRotate, handleEncoderPress, handleEncoderRelease,
    registerEncoderActions, encoderKey.
  destruct (decide (encoder = 0)) as [->|Hne].
  - cbn [Z.eqb callbacksOf]. split; [by rewrite !Hcalls|].
    split; [done|]. split; [done|]. split; [done|]. split.
    { by rewrite !Hframe. }
    intros target r p q.
    destruct (Z.eqb_spec target 0) as [->|Ht]; cbn.
    + by rewrite decide_True.
    + rewrite decide_False; [done|]. tauto.
  - destruct (Z.eqb_spec encoder 0) as [|_]; [done|]. cbn [callbacksOf].
    split; [by rewrite !Hcalls|].
    split; [done|]. split; [done|]. split; [done|]. split.
    { by rewrite !Hframe. }
    intros target r p q.
    destruct (Z.eqb_spec target 0) as [->|Ht]; cbn.
    + rewrite decide_False; [done|]. tauto.
    + by rewrite decide_True by tauto.
Qed.

(** ** Presses in the detail view *)

(** A press on a button whose text is the name of a chain loads the
    first chain of that name, whatever is registered for the button. *)
Lemma press_on_chain_name (n : Z) (c first : Chain.t) (st : Controller) :
  n <> 0 -> buttonTexts st !! n = Some (Chain.name c) ->
  truthy (Chain.name c) = true ->
  List.find (fun x => strict_eq (Chain.name x) (Chain.name c)) (chains st) = Some first ->
  handleKeyPress (KNum n) st = loadChain first st.
Proof.
  intros Hn Htext Htruthy Hfind.
  rewrite handleKeyPress_nonzero by (destruct n; done).
  unfold getButtonText. cbn [getKeyIndex mapGet]. rewrite Htext.
  cbn [default from_option id].
  unfold or. rewrite Htruthy. by rewrite Hfind.
Qed.

(** A press on a button whose text names no chain does nothing. *)
Lemma press_on_other_text (n : Z) (t : value) (st : Controller) :
  n <> 0 -> buttonTexts st !! n = Some t -> truthy t = true ->
  List.find (fun x => strict_eq (Chain.name x) t) (chains st) = None ->
  handleKeyPress (KNum n) st = Done st.
Proof.
  intros Hn Htext Htruthy Hfind.
  rewrite handleKeyPress_nonzero by (destruct n; done).
  unfold getButtonText. cbn [getKeyIndex mapGet]. rewrite Htext.
  cbn [default from_option id].
  unfold or. rewrite Htruthy. by rewrite Hfind.
Qed.

(** C1: in the detail view of "Lead", buttons 2 and 3 carry the
    actions registered for "Synth A" and "Comp 1", yet a press on either
    leaves every field as it was: no callback is called.  And in the
    detail view of a chain whose module is labelled like the chain
    "Bass", the press on that module's button leaves the chain for
    "Bass". *)
Theorem C1_module_press_calls_no_action :
  let st := firstChainOpened leadDoc in
  (Chain.name <$> currentChain st = Some (Str "Lead") /\
   info_name <$> buttonStates st !! 2 = Some (Str "Synth A") /\
   info_name <$> buttonStates st !! 3 = Some (Str "Comp 1") /\
   (exists m, pressCallback <$> buttonStates st !! 2
              = Some (ModulePressed (Str "Synth A") m)) /\
   handleKeyPress (KNum 2) st = Done st /\
   handleKeyPress (KNum 3) st = Done st /\
   calls (effects st) = []) /\
  let st2 := firstChainOpened crossDoc in
  Chain.name <$> currentChain st2 = Some (Str "Lead") /\
  info_type <$> buttonStates st2 !! 2 = Some (Str "module") /\
  Chain.name <$> currentChain (final (handleKeyPress (KNum 2) st2)) = Some (Str "Bass").
Proof.
  cbn zeta. split.
  - split; [reflexivity|]. split; [reflexivity|]. split; [reflexivity|].
    split; [eexists; reflexivity|]. split; [vm_compute; reflexivity|].
    split; [vm_compute; reflexivity|]. reflexivity.
  - split; [reflexivity|]. split; [reflexivity|]. vm_compute. reflexivity.
Qed.

(** C6: in the detail view of "Drums", button 1 shows the chain's name
    and carries the informational action, but a press on it does not call
    it: the press finds the chain named on the button and loads it over
    again, clearing the panel and drawing the whole view anew. *)
Theorem C6_header_press_reloads_the_chain :
  let st := firstChainOpened drumsBassDoc in
  exists drums st',
    currentChain st = Some drums /\ Chain.name drums = Str "Drums" /\
    buttonTexts st !! 1 = Some (Str "Drums") /\
    buttonStates st !! 1 = Some (headerState drums) /\
    handleKeyPress (KNum 1) st = Done st' /\
    handleKeyPress (KNum 1) st = loadChain drums st /\
    calls (effects st') = [] /\
    effects st' =
      (effects st ++
       [ClearPanel; SetBrightness 100;
        FillKeyBuffer 0 showChainsFace;
        FillKeyBuffer 1 (chainFace drums);
        FillKeyBuffer 2 (moduleFace
           (buttonOf (Mod.mk (Str "kick") (Str "Kick") (Str "source") Undefined "L"
                        Undefined Undefined Undefined) "source"))])%list.
Proof.
  cbn zeta. eexists. eexists.
  split; [reflexivity|]. split; [reflexivity|]. split; [reflexivity|].
  split; [reflexivity|]. split; [vm_compute; reflexivity|].
  split; [vm_compute; reflexivity|]. split; reflexivity.
Qed.

(** ** From the catalog to a chain and back *)

(** C8, as the claim has it, fails on two chains of the same name: the
    press on the button of the second one opens the first. *)
Lemma C8_press_on_twin_opens_the_first :
  let catalog := loadChainLayout twinsDoc started in
  exists a b,
    chains catalog = [a; b] /\ Chain.id a = Num 1 /\ Chain.id b = Num 2 /\
    buttonTexts catalog !! 2 = Some (Chain.name b) /\
    currentChain (final (handleKeyPress (KNum 2) catalog)) = Some a /\
    a <> b.
Proof.
  cbn zeta. eexists. eexists.
  split; [reflexivity|]. split; [reflexivity|]. split; [reflexivity|].
  split; [reflexivity|]. split; [reflexivity|]. discriminate.
Qed.

(** C8, amended: on a panel that never fails, the press on the button
    of a chain of the catalog view opens the detail view of the first
    chain of the catalog that bears the name on the button (the pressed
    chain itself when no other has its name), provided the modules of
    that chain all have a role; the press on button 0 from there gives
    back the texts, the faces and the empty action table of the catalog
    view; and a later press on the button of any chain selects the first
    chain bearing that chain's name. *)
Theorem C8_round_trip (st : Controller) (i : nat) (c first : Chain.t) :
  ready st ->
  chains st !! i = Some c -> (i < 31)%nat -> truthy (Chain.name c) = true ->
  List.find (fun x => strict_eq (Chain.name x) (Chain.name c)) (chains st) = Some first ->
  Forall (fun m => exists r, Mod.role m = Str r) (Chain.modules first) ->
  let catalog := showChains st in
  exists detail back layout,
    handleKeyPress (KNum (Z.of_nat i + 1)) catalog = Done detail /\
    (currentChain detail = Some first /\
     mapM layoutOf (Chain.modules first) = Ok layout /\
     buttonTexts detail = detailTexts first layout /\
     drawn detail = detailFaces first layout /\
     buttonStates detail = detailStates first layout /\
     buttonTexts detail !! 1 = Some (Chain.name first)) /\
    ((forall x, x ∈ chains st -> strict_eq (Chain.name x) (Chain.name c) = true -> x = c) ->
     first = c) /\
    handleKeyPress (KNum 0) detail = Done back /\
    (buttonTexts back = buttonTexts catalog /\ drawn back = drawn catalog /\
     buttonStates back = buttonStates catalog /\ chains back = chains st) /\
    (forall (j : nat) (c' first' : Chain.t),
       chains st !! j = Some c' -> (j < 31)%nat -> truthy (Chain.name c') = true ->
       List.find (fun x => strict_eq (Chain.name x) (Chain.name c')) (chains st)
         = Some first' ->
       currentChain (final (handleKeyPress (KNum (Z.of_nat j + 1)) back)) = Some first').
Proof.
  intros Hready Hi Hlt Htruthy Hfind Hroles catalog.
  assert (Kcat : keeps st catalog) by apply keeps_showChains.
  assert (Hrc : ready catalog) by by apply (keeps_ready _ _ Kcat).
  destruct (showChains_ready st Hready) as (Ht & Hp & Hs). fold catalog in Ht, Hp, Hs.
  destruct (mapM_layoutOf_strings _ Hroles) as (layout & Hlayout & _).
  destruct (loadChain_ready first layout catalog Hrc Hlayout)
    as (detail & Hload & Hcur & Hchains & Hrd & Htd & Hpd & Hsd).
  rewrite (keeps_chains _ _ Kcat) in Hchains.
  assert (Hpress : forall (s : Controller) (j : nat) (c' first' : Chain.t),
            buttonTexts s = catalogTexts (chains st) -> chains s = chains st ->
            chains st !! j = Some c' -> (j < 31)%nat -> truthy (Chain.name c') = true ->
            List.find (fun x => strict_eq (Chain.name x) (Chain.name c')) (chains st)
              = Some first' ->
            handleKeyPress (KNum (Z.of_nat j + 1)) s = loadChain first' s).
  { intros s j c' first' Hts Hcs Hj Hj31 Htr Hf.
    apply (press_on_chain_name _ c'); [lia| |done|by rewrite Hcs].
    rewrite Hts. unfold catalogTexts.
    by apply (fill_lookup_hit Chain.name 1 31 (chains st) 0 _ j c'). }
  exists detail, (showChains detail), layout.
  split.
  { rewrite (Hpress catalog i c first); try done.
    apply (keeps_chains _ _ Kcat). }
  split.
  { repeat split; try done. rewrite Htd. unfold detailTexts.
    rewrite fill_lookup_miss by lia. apply lookup_insert_eq. }
  split.
  { intros Huniq. apply find_some in Hfind as [Hin Heq].
    apply Huniq; [by apply list_elem_of_In | done]. }
  split; [by apply handleKeyPress_zero|].
  destruct (showChains_ready detail Hrd) as (Ht' & Hp' & Hs').
  assert (Hcb : chains (showChains detail) = chains st).
  { by rewrite (keeps_chains _ _ (keeps_showChains detail)). }
  split.
  { rewrite Ht', Hp', Hs', Ht, Hp, Hs, Hchains. done. }
  intros j c' first' Hj Hj31 Htr Hf.
  rewrite (Hpress (showChains detail) j c' first'); try done.
  - apply loadChain_current.
  - by rewrite Ht', Hchains.
Qed.

Lemma C8_round_trip_witness :
  let st := with_chains
              [Chain.mk (Str "Drums") (Num 1) Undefined (Bool false) [];
               Chain.mk (Str "Bass") (Num 2) Undefined (Bool false) []] started in
  ready st /\
  exists detail back,
    handleKeyPress (KNum 1) (showChains st) = Done detail /\
    Chain.name <$> currentChain detail = Some (Str "Drums") /\
    handleKeyPress (KNum 0) detail = Done back /\
    buttonTexts back = buttonTexts (showChains st) /\
    Chain.name <$> currentChain (final (handleKeyPress (KNum 2) back))
      = Some (Str "Bass").
Proof.
  cbn zeta.
  set (drums := Chain.mk (Str "Drums") (Num 1) Undefined (Bool false) []).
  set (bass := Chain.mk (Str "Bass") (Num 2) Undefined (Bool false) []).
  assert (Hready : ready (with_chains [drums; bass] started)).
  { intros index face. reflexivity. }
  split; [exact Hready|].
  destruct (C8_round_trip (with_chains [drums; bass] started) 0 drums drums Hready
              eq_refl ltac:(lia) eq_refl eq_refl (Forall_nil_2 _))
    as (detail & back & layout & Hdown & (Hcur & _) & _ & Hback & (Htexts & _) & Hnext).
  exists detail, back.
  split; [exact Hdown|]. split; [by rewrite Hcur|]. split; [exact Hback|].
  split; [exact Htexts|].
  pose proof (Hnext 1%nat bass bass eq_refl ltac:(lia) eq_refl eq_refl) as Hbass.
  change (Z.of_nat 1 + 1) with 2 in Hbass. by rewrite Hbass.
Defined.

(** * Further properties *)

(** ** The detail view *)

Lemma Forall2_lookup_buttons (ms : list Mod.t) (layout : list LayoutButton)
  (k : nat) (m : Mod.t) :
  Forall2 (fun m b => exists r, Mod.role m = Str r /\ b = buttonOf m r) ms layout ->
  ms !! k = Some m ->
  exists r, Mod.role m = Str r /\ layout !! k = Some (buttonOf m r).
Proof.
  intros Hall. revert k. induction Hall as [|x b xs bs (r & Hr & ->) _ IH]; intros k Hk.
  - done.
  - destruct k as [|k]; cbn in Hk.
    + inversion Hk; subst. eauto.
    + by apply IH.
Qed.

(** On a panel that never fails, opening a chain whose modules all have
    a role puts "Show Chains" on button 0, the chain's name on button 1
    and the module at position [k], for every [k] below 30, on button
    [k + 2]: its text is the device name or "Unknown Device", its colour
    that of the lower-cased role, and its registered action names the
    module and has no release callback.  No button above these is
    touched, so a 31st module is dropped silently. *)
Theorem detail_view_slots (c : Chain.t) (st : Controller) :
  ready st ->
  Forall (fun m => exists r, Mod.role m = Str r) (Chain.modules c) ->
  exists st',
    loadChain c st = Done st' /\ currentChain st' = Some c /\
    buttonTexts st' !! 0 = Some (Str "Show Chains") /\
    buttonTexts st' !! 1 = Some (Chain.name c) /\
    buttonStates st' !! 0 = None /\
    buttonStates st' !! 1 = Some (headerState c) /\
    (forall (k : nat) (m : Mod.t), Chain.modules c !! k = Some m -> (k < 30)%nat ->
       exists r, Mod.role m = Str r /\
         buttonTexts st' !! (Z.of_nat k + 2)
           = Some (or (Mod.deviceName m) (Str "Unknown Device")) /\
         backgroundColor <$> drawn st' !! (Z.of_nat k + 2)
           = Some (roleColor (toLowerCase r)) /\
         buttonStates st' !! (Z.of_nat k + 2) = Some (moduleState (buttonOf m r))) /\
    (forall j : Z, j < 0 \/ Z.of_nat (Nat.min (length (Chain.modules c)) 30) + 1 < j ->
       buttonTexts st' !! j = None /\ drawn st' !! j = None /\
       buttonStates st' !! j = None).
Proof.
  intros Hready Hroles.
  destruct (mapM_layoutOf_strings _ Hroles) as (layout & Hlayout & Hall).
  destruct (loadChain_ready c layout st Hready Hlayout)
    as (st' & Hload & Hcur & _ & _ & Ht & Hp & Hs).
  assert (Hlen : length layout = length (Chain.modules c)).
  { symmetry. by eapply Forall2_length. }
  exists st'. rewrite Ht, Hp, Hs. unfold detailTexts, detailFaces, detailStates.
  split; [done|]. split; [done|].
  split. { rewrite fill_lookup_miss by lia. by rewrite lookup_insert_ne. }
  split. { rewrite fill_lookup_miss by lia. apply lookup_insert_eq. }
  split. { rewrite fill_lookup_miss by lia. by rewrite lookup_singleton_ne. }
  split. { rewrite fill_lookup_miss by lia. apply lookup_singleton_eq. }
  split.
  - intros k m Hk Hk30.
    destruct (Forall2_lookup_buttons _ _ k m Hall Hk) as (r & Hr & Hb).
    exists r. split; [done|].
    rewrite (fill_lookup_hit label 2 30 layout 0 _ k _ Hb) by lia.
    rewrite (fill_lookup_hit moduleFace 2 30 layout 0 _ k _ Hb) by lia.
    rewrite (fill_lookup_hit moduleState 2 30 layout 0 _ k _ Hb) by lia.
    done.
  - intros j Hj. rewrite !fill_lookup_miss by lia.
    rewrite !lookup_insert_ne by lia. rewrite !lookup_singleton_ne by lia. done.
Qed.

Lemma detail_view_slots_witness :
  let c := Chain.mk (Str "Lead") (Num 1) Undefined (Bool false)
             [Mod.mk (Str "synth") Undefined (Str "Source") Undefined "L"
                Undefined Undefined Undefined] in
  ready started /\
  Forall (fun m => exists r, Mod.role m = Str r) (Chain.modules c) /\
  exists st', loadChain c started = Done st' /\
              buttonTexts st' !! 2 = Some (Str "Unknown Device") /\
              backgroundColor <$> drawn st' !! 2 = Some "#00008B".
Proof.
  cbn zeta.
  set (m := Mod.mk (Str "synth") Undefined (Str "Source") Undefined "L"
              Undefined Undefined Undefined).
  set (c := Chain.mk (Str "Lead") (Num 1) Undefined (Bool false) [m]).
  assert (Hready : ready started) by (intros index face; reflexivity).
  assert (Hroles : Forall (fun m => exists r, Mod.role m = Str r) (Chain.modules c)).
  { constructor; [by exists "Source" | constructor]. }
  split; [exact Hready|]. split; [exact Hroles|].
  destruct (detail_view_slots c started Hready Hroles)
    as (st' & Hload & _ & _ & _ & _ & _ & Hslots & _).
  exists st'. split; [exact Hload|].
  destruct (Hslots 0%nat m eq_refl ltac:(lia)) as (r & Hr & Ht & Hc & _).
  inversion Hr; subst r. split; [exact Ht | exact Hc].
Defined.

(** ** The catalog view when draws fail *)

Lemma takes_setButtonText (i : Z) (t : value) (o : TextOptions) (st : Controller) :
  takes (setButtonText i t o st) = takes st.
Proof.
  unfold setButtonText, takes. destruct (streamDeck st) as [d|] eqn:Hd; [|by rewrite Hd].
  destruct (accepts d i _); cbn; by rewrite ?Hd.
Qed.

Lemma setButtonText_lookup (i : Z) (t : value) (o : TextOptions) (st : Controller) :
  buttonTexts (setButtonText i t o st)
    = (if takes st i (faceOf t o) then <[i := t]> (buttonTexts st) else buttonTexts st) /\
  drawn (setButtonText i t o st)
    = (if takes st i (faceOf t o) then <[i := faceOf t o]> (drawn st) else drawn st) /\
  buttonStates (setButtonText i t o st) = buttonStates st.
Proof.
  unfold setButtonText, takes, drawn. destruct (streamDeck st) as [d|] eqn:Hd.
  - destruct (accepts d i _); cbn; by rewrite ?Hd.
  - by rewrite Hd.
Qed.

Lemma showChainButtons_miss (cs : list Chain.t) (i : nat) (st : Controller) (j : Z) :
  j < Z.of_nat i + 1 \/ Z.of_nat (Nat.max i (Nat.min (i + length cs) 31)) + 1 <= j ->
  buttonTexts (showChainButtons i cs st) !! j = buttonTexts st !! j /\
  drawn (showChainButtons i cs st) !! j = drawn st !! j.
Proof.
  revert i st. induction cs as [|c cs IH]; intros i st Hj;
    cbn [showChainButtons]; [done|].
  destruct (Nat.ltb_spec i 31) as [Hlt|Hge]; [|done].
  cbn [length] in Hj.
  destruct (IH (S i) (setButtonText (Z.of_nat i + 1) (Chain.name c)
                        (chainOptions (Chain.midiChannel c)) st)) as [Ht Hp]; [lia|].
  rewrite Ht, Hp.
  destruct (setButtonText_lookup (Z.of_nat i + 1) (Chain.name c)
              (chainOptions (Chain.midiChannel c)) st) as (Ht1 & Hp1 & _).
  rewrite Ht1, Hp1. destruct (takes st _ _); [|done].
  by rewrite !lookup_insert_ne by lia.
Qed.

Lemma showChainButtons_hit (cs : list Chain.t) (i : nat) (st : Controller)
  (k : nat) (c : Chain.t) :
  cs !! k = Some c -> (i + k < 31)%nat ->
  let j := Z.of_nat (i + k) + 1 in
  buttonTexts (showChainButtons i cs st) !! j
    = (if takes st j (chainFace c) then Some (Chain.name c) else buttonTexts st !! j) /\
  drawn (showChainButtons i cs st) !! j
    = (if takes st j (chainFace c) then Some (chainFace c) else drawn st !! j).
Proof.
  revert i st k. induction cs as [|x cs IH]; intros i st k Hk Hcap; [done|].
  cbn [showChainButtons]. destruct (Nat.ltb_spec i 31) as [Hlt|Hge]; [|lia].
  destruct (setButtonText_lookup (Z.of_nat i + 1) (Chain.name x)
              (chainOptions (Chain.midiChannel x)) st) as (Ht1 & Hp1 & _).
  destruct k as [|k]; cbn in Hk.
  - inversion Hk; subst x. cbn zeta. rewrite Nat.add_0_r.
    destruct (showChainButtons_miss cs (S i)
                (setButtonText (Z.of_nat i + 1) (Chain.name c)
                   (chainOptions (Chain.midiChannel c)) st) (Z.of_nat i + 1)) as [Ht Hp];
      [lia|].
    rewrite Ht, Hp, Ht1, Hp1. fold (chainFace c).
    destruct (takes st _ _); [|done]. by rewrite !lookup_insert_eq.
  - cbn zeta. replace (i + S k)%nat with (S i + k)%nat by lia.
    destruct (IH (S i) (setButtonText (Z.of_nat i + 1) (Chain.name x)
                          (chainOptions (Chain.midiChannel x)) st) k Hk) as [Ht Hp];
      [lia|].
    cbn zeta in Ht, Hp. rewrite Ht, Hp, takes_setButtonText, Ht1, Hp1.
    destruct (takes st (Z.of_nat (S i + k) + 1) (chainFace c)); [done|].
    destruct (takes st (Z.of_nat i + 1) _); [|done].
    by rewrite !lookup_insert_ne by lia.
Qed.

(** With a panel opened and cleared, [showChains] attempts every chain
    button even when some draws fail: the chain at position [i] below 31
    has its name and face on button [i + 1] exactly when the panel took
    that draw, and a button whose draw failed is left without text and
    face, whatever it showed before. *)
Theorem catalog_view_survives_failed_draws (st : Controller) (d : Device)
  (i : nat) (c : Chain.t) :
  streamDeck st = Some d -> chains st !! i = Some c -> (i < 31)%nat ->
  let j := Z.of_nat i + 1 in
  buttonTexts (showChains st) !! j
    = (if accepts d j (chainFace c) then Some (Chain.name c) else None) /\
  drawn (showChains st) !! j
    = (if accepts d j (chainFace c) then Some (chainFace c) else None).
Proof.
  intros Hd Hi Hlt. cbn zeta. unfold showChains, createShowChainsButton.
  set (o := {| opt_fontSize := Some 16; opt_color := _; opt_backgroundColor := _;
               opt_cornerRadius := _; opt_midiChannel := _ |}).
  set (s0 := resetDeck st).
  set (s1 := setButtonText 0 (Str "Show Chains") o s0).
  assert (Hc : chains s1 = chains st).
  { subst s1 s0. by rewrite (keeps_chains _ _ (keeps_setButtonText _ _ _ _)),
                            (keeps_chains _ _ (keeps_resetDeck _)). }
  rewrite Hc.
  destruct (showChainButtons_hit (chains st) 0 s1 i c Hi Hlt) as [Ht Hp].
  cbn zeta in Ht, Hp. rewrite Nat.add_0_l in Ht, Hp. rewrite Ht, Hp.
  assert (Htakes : takes s1 = accepts d).
  { subst s1. rewrite takes_setButtonText. subst s0. unfold resetDeck, takes.
    by rewrite Hd. }
  rewrite Htakes.
  destruct (setButtonText_lookup 0 (Str "Show Chains") o s0) as (Ht1 & Hp1 & _).
  fold s1 in Ht1, Hp1. rewrite Ht1, Hp1.
  assert (H0 : buttonTexts s0 = ∅ /\ drawn s0 = ∅).
  { subst s0. unfold resetDeck, drawn. by rewrite Hd. }
  destruct H0 as [-> ->].
  destruct (accepts d _ (chainFace c)); [done|].
  destruct (takes s0 0 _); by rewrite ?lookup_insert_ne, !lookup_empty by lia.
Qed.

Lemma catalog_view_survives_failed_draws_witness :
  let d := {| panel := ∅; brightness := 100;
              accepts := fun index _ => negb (index =? 1) |} in
  let st := with_chains [Chain.mk (Str "Drums") (Num 1) Undefined (Bool false) [];
                         Chain.mk (Str "Bass") (Num 2) Undefined (Bool false) []]
              (created (Some d)) in
  streamDeck st = Some d /\
  buttonTexts (showChains st) !! 1 = None /\
  buttonTexts (showChains st) !! 2 = Some (Str "Bass").
Proof.
  cbn zeta.
  set (d := {| panel := ∅; brightness := 100;
               accepts := fun index _ => negb (index =? 1) |}).
  set (drums := Chain.mk (Str "Drums") (Num 1) Undefined (Bool false) []).
  set (bass := Chain.mk (Str "Bass") (Num 2) Undefined (Bool false) []).
  set (st := with_chains [drums; bass] (created (Some d))).
  assert (Hd : streamDeck st = Some d) by reflexivity.
  split; [exact Hd|]. split.
  - exact (proj1 (catalog_view_survives_failed_draws st d 0%nat drums Hd eq_refl
                    ltac:(lia))).
  - exact (proj1 (catalog_view_survives_failed_draws st d 1%nat bass Hd eq_refl
                    ltac:(lia))).
Defined.

(** ** A chain that cannot be opened *)

(** On a panel that never fails, opening a chain one of whose modules
    has no string for its role raises a [TypeError] whatever the other
    modules are: the chain is selected and buttons 0 and 1 are drawn, but
    no module button is drawn or registered. *)
Theorem chain_with_roleless_module_does_not_open (c : Chain.t) (st : Controller) :
  ready st ->
  Exists (fun m => forall r, Mod.role m <> Str r) (Chain.modules c) ->
  exists st',
    loadChain c st = Threw TypeError st' /\ currentChain st' = Some c /\
    buttonTexts st' = <[1 := Chain.name c]> {[0 := Str "Show Chains"]} /\
    drawn st' = <[1 := chainFace c]> {[0 := showChainsFace]} /\
    buttonStates st' = {[1 := headerState c]}.
Proof.
  intros Hready Hmissing.
  destruct (loadChain_missing_role c st Hmissing) as (st' & Hload & Hcur).
  exists st'. split; [exact Hload|]. split; [exact Hcur|].
  unfold loadChain in Hload.
  set (sc := with_currentChain (Some c) st) in *.
  assert (Hc : ready sc) by exact Hready.
  set (s0 := resetDeck sc) in *.
  assert (H0 : ready s0) by by apply (keeps_ready _ _ (keeps_resetDeck sc)).
  destruct (resetDeck_ready sc Hc) as (Ht0 & Hp0 & Hs0). fold s0 in Ht0, Hp0, Hs0.
  unfold createShowChainsButton in *.
  set (o := {| opt_fontSize := Some 16; opt_color := _; opt_backgroundColor := _;
               opt_cornerRadius := _; opt_midiChannel := _ |}) in *.
  destruct (setButtonText_ready 0 (Str "Show Chains") o s0 H0) as (Ht1 & Hp1 & Hs1 & _).
  set (s1 := setButtonText 0 (Str "Show Chains") o s0) in *.
  assert (H1 : ready s1) by by apply (keeps_ready _ _ (keeps_setButtonText _ _ _ s0)).
  assert (Hcur1 : currentChain s1 = Some c).
  { subst s1 s0.
    by rewrite (keeps_current _ _ (keeps_setButtonText _ _ _ _)),
               (keeps_current _ _ (keeps_resetDeck _)). }
  unfold createChainNameButton in Hload. rewrite Hcur1 in Hload.
  destruct (setButtonText_ready 1 (Chain.name c) (chainOptions (Chain.midiChannel c)) s1 H1)
    as (Ht2 & Hp2 & Hs2 & _).
  set (s2 := setButtonText 1 (Chain.name c) (chainOptions (Chain.midiChannel c)) s1) in *.
  unfold showModules in Hload. rewrite (mapM_layoutOf_missing _ Hmissing) in Hload.
  inversion Hload as [Hst]. unfold registerButtonAction, drawn. cbn.
  fold (drawn s2). rewrite Ht2, Hp2, Hs2, Ht1, Hp1, Hs1, Ht0, Hp0, Hs0.
  by rewrite !insert_empty.
Qed.

Lemma chain_with_roleless_module_does_not_open_witness :
  let c := Chain.mk (Str "Solo") (Num 1) Undefined (Bool false)
             [Mod.mk (Str "a") (Str "A") (Str "source") Undefined "L" Undefined
                Undefined Undefined;
              Mod.mk (Str "mic") (Str "Mic") Undefined Undefined "R" Undefined
                Undefined Undefined] in
  ready started /\
  Exists (fun m => forall r, Mod.role m <> Str r) (Chain.modules c) /\
  exists st', loadChain c started = Threw TypeError st' /\
              buttonStates st' = {[1 := headerState c]}.
Proof.
  cbn zeta.
  set (c := Chain.mk (Str "Solo") (Num 1) Undefined (Bool false) _).
  assert (Hready : ready started) by (intros index face; reflexivity).
  assert (Hmissing : Exists (fun m => forall r, Mod.role m <> Str r) (Chain.modules c)).
  { apply Exists_cons_tl, Exists_cons_hd. intros r. discriminate. }
  split; [exact Hready|]. split; [exact Hmissing|].
  destruct (chain_with_roleless_module_does_not_open c started Hready Hmissing)
    as (st' & Hload & _ & _ & _ & Hs).
  exists st'. split; [exact Hload | exact Hs].
Defined.

(** ** Views are rebuilt from scratch *)



(** ** Without a panel *)






(** ** Brightness *)

Lemma brightnessOf_setButtonText (i : Z) (t : value) (o : TextOptions) (st : Controller) :
  brightnessOf (setButtonText i t o st) = brightnessOf st.
Proof.
  unfold setButtonText, brightnessOf. destruct (streamDeck st) as [d|] eqn:Hd;
    [|by rewrite Hd].
  destruct (accepts d i _); cbn; by rewrite ?Hd.
Qed.

Lemma brightnessOf_showChainButtons (cs : list Chain.t) (i : nat) (st : Controller) :
  brightnessOf (showChainButtons i cs st) = brightnessOf st.
Proof.
  revert i st. induction cs as [|c cs IH]; intros i st; cbn [showChainButtons]; [done|].
  destruct (i <? 31)%nat; [|done]. by rewrite IH, brightnessOf_setButtonText.
Qed.

Lemma brightnessOf_layoutButtons (layout : list LayoutButton) (i : nat) (st : Controller) :
  brightnessOf (layoutButtons i layout st) = brightnessOf st.
Proof.
  revert i st. induction layout as [|b bs IH]; intros i st; cbn [layoutButtons]; [done|].
  destruct (30 <=? i)%nat; [done|]. rewrite IH.
  unfold registerButtonAction, brightnessOf. cbn [streamDeck with_buttonStates].
  apply brightnessOf_setButtonText.
Qed.

Lemma brightnessOf_resetDeck (st : Controller) (d : Device) :
  streamDeck st = Some d -> brightnessOf (resetDeck st) = Some 100.
Proof. intros Hd. unfold resetDeck, brightnessOf. by rewrite Hd. Qed.

(** On a panel that never fails, [setBrightness] takes any number as it
    is and changes nothing that is drawn, and the setting lasts until the
    next change of view: [showChains] and [loadChain] both put the panel
    back to 100. *)
Theorem views_reset_the_brightness (percent : Z) (st : Controller) :
  ready st ->
  brightnessOf (setBrightness percent st) = Some percent /\
  drawn (setBrightness percent st) = drawn st /\
  brightnessOf (showChains (setBrightness percent st)) = Some 100 /\
  forall c : Chain.t,
    brightnessOf (final (loadChain c (setBrightness percent st))) = Some 100.
Proof.
  intros (d & Hd & _)%ready_device.
  assert (Hset : exists d', streamDeck (setBrightness percent st) = Some d').
  { unfold setBrightness. rewrite Hd. eauto. }
  destruct Hset as [d' Hd'].
  split; [unfold setBrightness, brightnessOf; by rewrite Hd|].
  split; [unfold setBrightness, drawn; by rewrite Hd|].
  set (sb := setBrightness percent st) in *. split.
  - unfold showChains, createShowChainsButton.
    rewrite brightnessOf_showChainButtons, brightnessOf_setButtonText.
    by apply (brightnessOf_resetDeck sb d').
  - intros c. unfold loadChain, createShowChainsButton.
    set (s1 := setButtonText 0 _ _ (resetDeck (with_currentChain (Some c) sb))).
    assert (H1 : brightnessOf s1 = Some 100).
    { subst s1. rewrite brightnessOf_setButtonText.
      by apply (brightnessOf_resetDeck _ d'). }
    unfold createChainNameButton.
    destruct (currentChain s1); [|by cbn].
    set (s3 := registerButtonAction 1 _ _ _ _ _ _).
    assert (H3 : brightnessOf s3 = Some 100).
    { subst s3. unfold registerButtonAction, brightnessOf.
      cbn [streamDeck with_buttonStates]. fold (brightnessOf (setButtonText 1
        (Chain.name c) (chainOptions (Chain.midiChannel t)) s1)).
      by rewrite brightnessOf_setButtonText. }
    unfold showModules. destruct (mapM layoutOf (Chain.modules c)); cbn [final]; [|done].
    unfold createCustomLayout. destruct (streamDeck s3); [|done].
    by rewrite brightnessOf_layoutButtons.
Qed.

Lemma views_reset_the_brightness_witness :
  ready started /\
  brightnessOf (setBrightness 40 started) = Some 40 /\
  brightnessOf (showChains (setBrightness 40 started)) = Some 100.
Proof.
  assert (Hready : ready started) by (intros index face; reflexivity).
  split; [exact Hready|]. split.
  - exact (proj1 (views_reset_the_brightness 40 started Hready)).
  - exact (proj1 (proj2 (proj2 (views_reset_the_brightness 40 started Hready)))).
Defined.

(** ** Buttons without a text *)



(** ** Registered actions *)

Lemma buttonStates_showChainButtons (cs : list Chain.t) (i : nat) (st : Controller) :
  buttonStates (showChainButtons i cs st) = buttonStates st.
Proof.
  revert i st. induction cs as [|c cs IH]; intros i st; cbn [showChainButtons]; [done|].
  destruct (i <? 31)%nat; [|done]. rewrite IH.
  by destruct (setButtonText_lookup (Z.of_nat i + 1) (Chain.name c)
                 (chainOptions (Chain.midiChannel c)) st) as (_ & _ & ->).
Qed.



(** ** Sessions *)

Lemma quiet_registerButtonAction (i : Z) (p : Callback) (ty n ro : value)
  (st : Controller) :
  quiet st -> quiet (registerButtonAction i p None ty n ro st).
Proof.
  intros Hq m b. unfold registerButtonAction. cbn [buttonStates with_buttonStates].
  destruct (decide (i = m)) as [->|Hne].
  - rewrite lookup_insert_eq. by intros [= <-].
  - rewrite lookup_insert_ne by done. apply Hq.
Qed.

Lemma quiet_same_states (st st' : Controller) :
  buttonStates st' = buttonStates st -> quiet st -> quiet st'.
Proof. intros Hs Hq n b. rewrite Hs. apply Hq. Qed.

Lemma quiet_resetDeck (st : Controller) : quiet st -> quiet (resetDeck st).
Proof.
  intros Hq. unfold resetDeck. destruct (streamDeck st); [|done].
  intros n b. cbn. by rewrite lookup_empty.
Qed.

Lemma quiet_setButtonText (i : Z) (t : value) (o : TextOptions) (st : Controller) :
  quiet st -> quiet (setButtonText i t o st).
Proof.
  apply quiet_same_states. by destruct (setButtonText_lookup i t o st) as (_ & _ & ->).
Qed.

Lemma quiet_layoutButtons (layout : list LayoutButton) (i : nat) (st : Controller) :
  quiet st -> quiet (layoutButtons i layout st).
Proof.
  revert i st. induction layout as [|b bs IH]; intros i st Hq; cbn [layoutButtons];
    [done|].
  destruct (30 <=? i)%nat; [done|].
  apply IH, quiet_registerButtonAction, quiet_setButtonText, Hq.
Qed.

Lemma quiet_showChains (st : Controller) : quiet st -> quiet (showChains st).
Proof.
  intros Hq. unfold showChains, createShowChainsButton.
  eapply quiet_same_states; [apply buttonStates_showChainButtons|].
  apply quiet_setButtonText, quiet_resetDeck, Hq.
Qed.

Lemma quiet_loadChain (c : Chain.t) (st : Controller) :
  quiet st -> quiet (final (loadChain c st)).
Proof.
  intros Hq. unfold loadChain, createShowChainsButton.
  set (s1 := setButtonText 0 _ _ (resetDeck (with_currentChain (Some c) st))).
  assert (H1 : quiet s1).
  { subst s1. apply quiet_setButtonText, quiet_resetDeck. exact Hq. }
  unfold createChainNameButton. destruct (currentChain s1); [|exact H1].
  set (s3 := registerButtonAction 1 _ _ _ _ _ _).
  assert (H3 : quiet s3).
  { subst s3. apply quiet_registerButtonAction, quiet_setButtonText, H1. }
  unfold showModules. destruct (mapM layoutOf (Chain.modules c)); cbn [final]; [|done].
  unfold createCustomLayout. destruct (streamDeck s3); [|done].
  by apply quiet_layoutButtons.
Qed.

Lemma quiet_handleKeyPress (k : key) (st : Controller) :
  quiet st -> quiet (final (handleKeyPress k st)).
Proof.
  intros Hq. unfold handleKeyPress. destruct (isZero _); [by apply quiet_showChains|].
  destruct (List.find _ _); [by apply quiet_loadChain | done].
Qed.

Lemma handleKeyRelease_quiet (k : key) (st : Controller) :
  quiet st -> handleKeyRelease k st = st.
Proof.
  intros Hq. unfold handleKeyRelease.
  destruct (mapGet (buttonStates st) (Number k)) as [b|] eqn:Hb; [|done].
  destruct (Number k); try discriminate. cbn in Hb. by rewrite (Hq _ _ Hb).
Qed.

Lemma listen_untouched (ev : Event) (st : Controller) :
  ready st -> quiet st -> dialsFree st ->
  let st' := final (listen ev st) in
  ready st' /\ quiet st' /\ dialsFree st' /\ chains st' = chains st /\
  calls (effects st') = calls (effects st).
Proof.
  intros Hready Hq Hfree. destruct ev as [k|k|e v|e|e]; cbn [listen final].
  - assert (Hk : ready (final (handleKeyPress k st)) /\
                 encoderCallbacks (final (handleKeyPress k st)) = encoderCallbacks st).
    { unfold handleKeyPress. destruct (isZero _).
      - destruct (keeps_showChains st) as [_ _ He _ Hr]. auto.
      - destruct (List.find _ _) as [c|]; [|done].
        destruct (keeps_loadChain c st) as [_ _ He _ Hr]. auto. }
    destruct Hk as [Hr He]. split; [exact Hr|].
    split; [by apply quiet_handleKeyPress|].
    destruct (handleKeyPress_calls_nothing k st) as [Hcalls Hchains].
    split; [|done]. unfold dialsFree in *. by rewrite He.
  - by rewrite handleKeyRelease_quiet.
  - unfold handleEncoderRotate. rewrite Hfree. by destruct (encoderKey e).
  - unfold handleEncoderPress. rewrite Hfree. by destruct (encoderKey e).
  - unfold handleEncoderRelease. rewrite Hfree. by destruct (encoderKey e).
Qed.

(** On a panel that never fails, and as long as no caller has
    registered a release callback or a dial callback, no sequence of
    panel events (presses, releases, dial turns and pushes) ever calls a
    callback or changes the catalog: the press actions that the views
    register are never run, and the views register no release
    callback. *)
Theorem events_alone_call_nothing (evs : list Event) (st : Controller) :
  ready st -> quiet st -> dialsFree st ->
  calls (effects (run evs st)) = calls (effects st) /\
  chains (run evs st) = chains st /\
  ready (run evs st) /\ quiet (run evs st) /\ dialsFree (run evs st).
Proof.
  revert st. induction evs as [|ev evs IH]; intros st Hready Hq Hfree; cbn [run];
    [done|].
  destruct (listen_untouched ev st Hready Hq Hfree)
    as (Hready' & Hq' & Hfree' & Hchains & Hcalls).
  destruct (IH _ Hready' Hq' Hfree') as (Hc & Hch & Hrest).
  by rewrite Hc, Hch, Hcalls, Hchains.
Qed.

Lemma events_alone_call_nothing_witness :
  let st := loadChainLayout drumsBassDoc started in
  ready st /\ quiet st /\ dialsFree st /\
  calls (effects (run [Down (KNum 1); Up (KNum 1); Down (KControl (Some 2));
                       Up (KNum 2); Dial 0 3; DialDown 1; Down (KNum 0)] st)) = [].
Proof.
  cbn zeta.
  assert (Hready : ready (loadChainLayout drumsBassDoc started)).
  { unfold ready. vm_compute. intros index face. reflexivity. }
  assert (Hq : quiet (loadChainLayout drumsBassDoc started)).
  { intros n b Hb. vm_compute in Hb. discriminate. }
  assert (Hfree : dialsFree (loadChainLayout drumsBassDoc started)) by reflexivity.
  split; [exact Hready|]. split; [exact Hq|]. split; [exact Hfree|].
  exact (proj1 (events_alone_call_nothing _ _ Hready Hq Hfree)).
Defined.

(** ** Start-up *)

(** [#initialize] ends with an opened panel exactly when some listed
    device is a "studio", whatever the case of the letters, and the
    first such device opens.  It opens no device of another model and
    tries no second Studio when the first one fails to open; when it
    ends without a panel it has reported an error.  In every case the
    controller starts without texts, actions, chains and calls. *)
Theorem initialize_opens_the_first_studio (devices : list DeviceInfo)
  (openStreamDeck : string -> Device + string) :
  let st := fst (initialize devices openStreamDeck) in
  let reported := snd (initialize devices openStreamDeck) in
  (is_Some (streamDeck st) <->
   exists pre info post d,
     devices = (pre ++ info :: post)%list /\
     Forall (fun x => isStudio x = false) pre /\ isStudio info = true /\
     openStreamDeck (path info) = inl d) /\
  (is_Some (streamDeck st) \/ is_Some reported) /\
  buttonTexts st = ∅ /\ buttonStates st = ∅ /\ chains st = [] /\
  currentChain st = None /\ calls (effects st) = [].
Proof.
  cbn zeta. unfold initialize.
  destruct devices as [|dev0 rest].
  { cbn. split; [|split; [eauto|done]].
    split; [intros [? [=]]|]. intros (pre & info & post & d & Heq & _).
    by destruct pre. }
  set (devices := dev0 :: rest).
  destruct (List.find isStudio devices) as [info|] eqn:Hfind.
  - assert (Hsplit : exists pre post, devices = (pre ++ info :: post)%list /\
                       Forall (fun x => isStudio x = false) pre /\ isStudio info = true).
    { clear -Hfind. induction devices as [|x xs IH]; [discriminate|].
      cbn in Hfind. destruct (isStudio x) eqn:Hx.
      - inversion Hfind; subst. exists [], xs. repeat split; [constructor | done].
      - destruct (IH Hfind) as (pre & post & -> & Hpre & Hinfo).
        exists (x :: pre), post. repeat split; [by constructor | done]. }
    destruct Hsplit as (pre & post & Hdev & Hpre & Hinfo).
    assert (Huniq : forall pre' info' post',
              devices = (pre' ++ info' :: post')%list ->
              Forall (fun x => isStudio x = false) pre' -> isStudio info' = true ->
              info' = info).
    { intros pre' info' post' Hdev' Hpre' Hinfo'. rewrite Hdev' in Hfind.
      clear -Hfind Hpre' Hinfo'.
      induction Hpre' as [|x xs Hx _ IH]; cbn in Hfind.
      - rewrite Hinfo' in Hfind. by inversion Hfind.
      - rewrite Hx in Hfind. by apply IH. }
    destruct (openStreamDeck (path info)) as [d|message] eqn:Hopen.
    + cbn [fst snd]. unfold resetDeck. cbn.
      split; [|split; [eauto|done]].
      split; [|eauto]. intros _. exists pre, info, post, d. done.
    + cbn [fst snd]. cbn. split; [|split; [eauto|done]].
      split; [intros [? [=]]|].
      intros (pre' & info' & post' & d & Hdev' & Hpre' & Hinfo' & Hopen').
      rewrite (Huniq _ _ _ Hdev' Hpre' Hinfo') in Hopen'. congruence.
  - cbn [fst snd]. cbn. split; [|split; [eauto|done]].
    split; [intros [? [=]]|].
    intros (pre & info & post & d & Hdev & _ & Hinfo & _).
    assert (Hin : In info devices) by (rewrite Hdev; apply in_elt).
    by rewrite (find_none _ _ Hfind info Hin) in Hinfo.
Qed.

Lemma initialize_opens_the_first_studio_witness :
  let devices := [{| model := "plus"; path := "/dev/hid0" |};
                  {| model := "Studio"; path := "/dev/hid1" |};
                  {| model := "studio"; path := "/dev/hid2" |}] in
  let openStreamDeck := fun p => if String.eqb p "/dev/hid1" then inl blank
                                 else inr "busy" in
  is_Some (streamDeck (fst (initialize devices openStreamDeck))).
Proof.
  cbn zeta.
  apply (proj1 (initialize_opens_the_first_studio _ _)).
  exists [{| model := "plus"; path := "/dev/hid0" |}],
         {| model := "Studio"; path := "/dev/hid1" |},
         [{| model := "studio"; path := "/dev/hid2" |}], blank.
  split; [reflexivity|]. split; [by repeat constructor|]. split; reflexivity.
Defined.

(** When no listed device is a Studio, the reported error names the
    models that were found, separated by commas. *)
Theorem initialize_names_the_models_found (devices : list DeviceInfo)
  (openStreamDeck : string -> Device + string) :
  devices <> [] -> Forall (fun x => isStudio x = false) devices ->
  initialize devices openStreamDeck =
  (created None,
   Some (Error (String.append "No Stream Deck Studio found. Available devices: "
                  (join ", " (model <$> devices))))).
Proof.
  intros Hne Hnone. unfold initialize. destruct devices as [|dev0 rest]; [done|].
  destruct (List.find isStudio (dev0 :: rest)) as [info|] eqn:Hfind; [|done].
  apply find_some in Hfind as [Hin Hinfo].
  rewrite Forall_forall in Hnone. apply list_elem_of_In in Hin.
  by rewrite (Hnone info Hin) in Hinfo.
Qed.

Lemma initialize_names_the_models_found_witness :
  let devices := [{| model := "original-v2"; path := "/dev/hid0" |};
                  {| model := "plus"; path := "/dev/hid1" |}] in
  devices <> [] /\ Forall (fun x => isStudio x = false) devices /\
  snd (initialize devices (fun _ => inl blank)) =
  Some (Error "No Stream Deck Studio found. Available devices: original-v2, plus").
Proof.
  cbn zeta.
  set (devices := [{| model := "original-v2"; path := "/dev/hid0" |};
                   {| model := "plus"; path := "/dev/hid1" |}]).
  assert (Hne : devices <> []) by discriminate.
  assert (Hnone : Forall (fun x => isStudio x = false) devices).
  { repeat constructor. }
  split; [exact Hne|]. split; [exact Hnone|].
  by rewrite (initialize_names_the_models_found devices (fun _ => inl blank) Hne Hnone).
Defined.

(** ** Role colours, whatever the case *)

Lemma lower_lower (c : ascii) : lower (lower c) = lower c.
Proof. destruct c as [[] [] [] [] [] [] [] []]; reflexivity. Qed.

Lemma toLowerCase_idempotent (s : string) : toLowerCase (toLowerCase s) = toLowerCase s.
Proof. induction s as [|c s IH]; cbn; [done|]. by rewrite lower_lower, IH. Qed.

(** The colour of a role does not depend on the case of its letters: a
    role gets dark blue, dark orange or dark green exactly when its
    lower-cased name is "source", "proc" or "dest", and gray in every
    other case; on a string the lookup never raises. *)
Theorem role_colour_ignores_case (r : string) :
  getColorForRole (Str r) = getColorForRole (Str (toLowerCase r)) /\
  (getColorForRole (Str r) = Ok "#00008B" <-> toLowerCase r = "source") /\
  (getColorForRole (Str r) = Ok "#FF8C00" <-> toLowerCase r = "proc") /\
  (getColorForRole (Str r) = Ok "#006400" <-> toLowerCase r = "dest") /\
  (getColorForRole (Str r) = Ok "#333333" <->
   toLowerCase r <> "source" /\ toLowerCase r <> "proc" /\ toLowerCase r <> "dest").
Proof.
  split.
  { by rewrite !getColorForRole_string, toLowerCase_idempotent. }
  rewrite getColorForRole_string. unfold roleColor.
  destruct (String.eqb_spec (toLowerCase r) "source") as [->|H1].
  { repeat split; try done; try discriminate. by intros (? & _). }
  destruct (String.eqb_spec (toLowerCase r) "proc") as [->|H2].
  { repeat split; try done; try discriminate. by intros (_ & ? & _). }
  destruct (String.eqb_spec (toLowerCase r) "dest") as [->|H3].
  { repeat split; try done; try discriminate. by intros (_ & _ & ?). }
  repeat split; try done; try discriminate.
Qed.

(** ** What the normalization builds *)


Lemma moduleOf_channel (cell item : value) (ch : string) (m : Mod.t) :
  moduleOf cell item ch = Ok m -> Mod.channel m = ch /\ roleShape m.
Proof.
  intros H. split; [|by eapply moduleOf_role].
  unfold moduleOf in H. repeat (apply bind_Ok in H as (? & _ & H)).
  by inversion H.
Qed.

Lemma mapM_moduleOf_channels (cell item : value) (chs : list string) (ms : list Mod.t) :
  mapM (moduleOf cell item) chs = Ok ms -> Mod.channel <$> ms = chs.
Proof.
  intros H. apply mapM_Ok in H.
  induction H as [|ch m chs ms Hm _ IH]; [done|].
  cbn. rewrite IH. by destruct (moduleOf_channel _ _ _ _ Hm) as [-> _].
Qed.



Lemma itemModules_sides (cell item : value) (ms : list Mod.t) :
  itemModules cell item = Ok ms ->
  Forall (fun m => Mod.channel m = "L" \/ Mod.channel m = "R") ms.
Proof.
  unfold itemModules. intros H. apply bind_Ok in H as (chs & Hchs & H).
  assert (Hsub : Forall (fun ch => ch = "L" \/ ch = "R") chs).
  { clear H. cbn in Hchs.
    apply bind_Ok in Hchs as (sl & _ & Hchs). apply bind_Ok in Hchs as (kept & Hk & Hchs).
    apply bind_Ok in Hk as (sr & _ & Hk). cbn in Hk.
    inversion Hk; subst kept. inversion Hchs; subst chs.
    destruct (truthy sl), (truthy sr); repeat (constructor; auto). }
  pose proof (mapM_moduleOf_channels _ _ _ _ H) as Hch. subst chs.
  by apply Forall_fmap in Hsub.
Qed.

Lemma chainModules_sides (chain : value) (ms : list Mod.t) :
  chainModules chain = Ok ms ->
  Forall (fun m => Mod.channel m = "L" \/ Mod.channel m = "R") ms.
Proof.
  unfold chainModules. intros H. apply bind_Ok in H as (lanes & _ & H).
  destruct (nullish lanes); [inversion H; constructor|].
  apply bind_Ok in H as (lane & _ & H). apply bind_Ok in H as (cells & _ & H).
  destruct (nullish cells); [inversion H; constructor|].
  eapply flatMap_Forall; [|exact H]. intros cell ys Hc.
  unfold cellModules in Hc. apply bind_Ok in Hc as (items & _ & Hc).
  destruct (nullish items); [inversion Hc; constructor|].
  eapply flatMap_Forall; [|exact Hc]. apply itemModules_sides.
Qed.

(** Every catalog that the normalization answers has one chain for each
    value of the document's [chains], in their order; each chain has a
    name that is not falsy ("Unnamed Chain" at the least) and an [active]
    that is [false] or truthy, and each of its modules has the channel
    "L" or "R" and a role that is a string or [undefined]. *)
Theorem normalized_catalog_invariants (data : value) (cs : list Chain.t) :
  normalize data = Ok cs ->
  (exists chainsValue vs, get data "chains" = Ok chainsValue /\
                          values chainsValue = Ok vs /\
                          Forall2 (fun v c => normalizeChain v = Ok c) vs cs) /\
  Forall (fun c =>
            truthy (Chain.name c) = true /\
            (Chain.active c = Bool false \/ truthy (Chain.active c) = true) /\
            Forall (fun m => (Mod.channel m = "L" \/ Mod.channel m = "R") /\
                             roleShape m) (Chain.modules c)) cs.
Proof.
  intros Hn. pose proof (normalize_shape data cs Hn) as Hshape.
  unfold normalize in Hn. apply bind_Ok in Hn as (chainsValue & Hget & Hn).
  apply bind_Ok in Hn as (vs & Hvs & Hn). apply mapM_Ok in Hn.
  split; [by exists chainsValue, vs|].
  clear Hget Hvs. induction Hn as [|v c vs cs Hc _ IH]; [constructor|].
  inversion Hshape as [|? ? [Hname Hroles] Hrest]; subst.
  constructor; [|by apply IH].
  unfold normalizeChain in Hc.
  apply bind_Ok in Hc as (state & _ & Hc). apply bind_Ok in Hc as (name & _ & Hc).
  apply bind_Ok in Hc as (id & _ & Hc). apply bind_Ok in Hc as (mc & _ & Hc).
  apply bind_Ok in Hc as (cond & _ & Hc). apply bind_Ok in Hc as (active & _ & Hc).
  apply bind_Ok in Hc as (ms & Hms & Hc). inversion Hc; subst. cbn in *.
  split; [done|]. split.
  - unfold or. destruct (truthy active) eqn:Ha; auto.
  - apply chainModules_sides in Hms.
    rewrite Forall_forall in *. intros m Hm. split; auto.
Qed.

Lemma normalized_catalog_invariants_witness :
  exists cs, normalize drumsBassDoc = Ok cs /\
             Forall (fun c => truthy (Chain.name c) = true) cs.
Proof.
  eexists. split; [vm_compute; reflexivity|].
  eapply Forall_impl;
    [exact (proj2 (normalized_catalog_invariants drumsBassDoc _ eq_refl))|].
  intros c Hc. exact (proj1 Hc).
Defined.

(** One chain that cannot be normalized fails the load of all of them:
    the error is reported and the controller keeps the catalog, the
    texts and the panel it had. *)
Theorem one_bad_chain_fails_the_load (l : positive) (fields : list (string * value))
  (vs : list value) (v : value) (e : error) (st : Controller) :
  values (own "chains" fields) = Ok vs -> v ∈ vs -> normalizeChain v = Throw e ->
  exists e',
    effects (loadChainLayout (Obj l fields) st) = (effects st ++ [LoadError e'])%list /\
    besidesEffects (loadChainLayout (Obj l fields) st) = besidesEffects st.
Proof.
  intros Hvs Hin Hbad. unfold loadChainLayout, normalize.
  cbn [get mbind result_bind]. rewrite Hvs. cbn [mbind result_bind].
  assert (Hthrow : exists e', mapM normalizeChain vs = Throw e').
  { clear Hvs. induction vs as [|x xs IH]; [by apply elem_of_nil in Hin|].
    apply elem_of_cons in Hin as [<-|Hin].
    - cbn. rewrite Hbad. eauto.
    - cbn. destruct (normalizeChain x); cbn; [|eauto].
      destruct (IH Hin) as [e' ->]. eauto. }
  destruct Hthrow as [e' ->]. eauto.
Qed.

(** A document without [chains] (absent or [null]) cannot be loaded: the
    [TypeError] is reported and every field keeps its value. *)
Theorem load_without_chains_key (l : positive) (fields : list (string * value))
  (st : Controller) :
  nullish (own "chains" fields) = true ->
  effects (loadChainLayout (Obj l fields) st)
    = (effects st ++ [LoadError TypeError])%list /\
  besidesEffects (loadChainLayout (Obj l fields) st) = besidesEffects st.
Proof.
  intros Hnull. unfold loadChainLayout, normalize. cbn [get mbind result_bind].
  by destruct (own "chains" fields).
Qed.

Lemma one_bad_chain_fails_the_load_witness :
  let good := chainDoc 10 1 "Drums" [] in
  let fields := [("chains", Arr 2 [good; Null])] in
  values (own "chains" fields) = Ok [good; Null] /\ Null ∈ [good; Null] /\
  normalizeChain Null = Throw TypeError /\
  exists e', effects (loadChainLayout (Obj 1 fields) started)
               = (effects started ++ [LoadError e'])%list.
Proof.
  cbn zeta.
  set (good := chainDoc 10 1 "Drums" []).
  assert (Hvs : values (own "chains" [("chains", Arr 2 [good; Null])]) = Ok [good; Null])
    by reflexivity.
  assert (Hin : Null ∈ [good; Null]) by (apply list_elem_of_In; right; left; reflexivity).
  assert (Hbad : normalizeChain Null = Throw TypeError) by reflexivity.
  split; [exact Hvs|]. split; [exact Hin|]. split; [exact Hbad|].
  destruct (one_bad_chain_fails_the_load 1 _ _ _ _ started Hvs Hin Hbad)
    as (e' & He' & _).
  exists e'. exact He'.
Defined.

Lemma load_without_chains_key_witness :
  nullish (own "chains" [("version", Num 3)]) = true /\
  besidesEffects (loadChainLayout (Obj 1 [("version", Num 3)]) started)
    = besidesEffects started.
Proof.
  assert (Hnull : nullish (own "chains" [("version", Num 3)]) = true) by reflexivity.
  split; [exact Hnull|].
  exact (proj2 (load_without_chains_key 1 [("version", Num 3)] started Hnull)).
Defined.
Lemma normalizeChain_without_lanes_witness :
  nullish (own "lanes" [("id", Num 4)]) = true /\
  exists c, normalizeChain (Obj 1 [("id", Num 4)]) = Ok c /\ Chain.modules c = [].
Proof.
  assert (Hnull : nullish (own "lanes" [("id", Num 4)]) = true) by reflexivity.
  split; [exact Hnull|].
  destruct (normalizeChain_without_lanes 1 [("id", Num 4)] Hnull) as (c & Hc & Hm & _).
  exists c. split; [exact Hc | exact Hm].
Defined.
